(** * amdfan: the device registry, the fan curve and the control loop

    A shallow embedding of [src/amdfan/amdfan.py] (classes [Card], [Scanner],
    [Curve] and [FanController]) and the properties of it that the
    specification states.

    Conventions of the embedding.
    - Python [int] is [Z].  A dictionary that is only looked up is a [gmap];
      the registry [cards], which the control loop iterates in insertion
      order, is an association list with dictionary insertion.
    - A Python exception is a constructor of [exn]; code that can raise
      returns a [result].  Code that touches the hardware-monitor files runs
      in the monad [M], which threads a [world]: a snapshot of the file tree
      and the journal of the file accesses made so far.
    - The builtins [int(text)] and [float(text)] are an interface
      ([Builtins]): every general statement holds for any parser.
    - The quotient and product of [Card.set_fan_speed] are binary64
      operations on two Python ints; they are embedded with the IEEE 754
      operations of [SpecFloat] (53 bits, emax 1024), rounding included,
      because the rounding decides the integer that is written.
    - Temperatures and curve values pass through numpy.  A finite binary64
      number is embedded as the rational it is ([Q], compared with [==]), so
      that the comparisons of the constructor and of the search of
      [np.interp] are exact.  The arithmetic of [np.interp] between two
      control points is binary64 arithmetic: it is embedded with the
      operations of [SpecFloat], each one rounded, in the order of numpy's
      compiled code.  The temperature, the sensor's reading divided by 1000,
      is a binary64 quotient as well.  Control points that are infinite or
      not numbers are not part of the model.
    - Logging and [time.sleep] have no counterpart. *)

From Stdlib Require Import ZArith QArith Qround String Ascii List Lia Lqa.
From Stdlib Require Import DecimalString.
From Stdlib Require Import Floats.SpecFloat.
From stdpp Require Import gmap strings list.

Local Open Scope string_scope.
Local Open Scope list_scope.

(** ** Exceptions and results *)

Inductive exn : Type :=
| FileNotFoundError
| NotADirectoryError
| IsADirectoryError
| PermissionError
| KeyError (key : string)
| AttributeError (attr : string)
| IndexError
| ValueError (msg : string)
| OverflowError
| ZeroDivisionError
| SystemExit (code : Z).

Inductive result (A : Type) : Type :=
| Ok (a : A)
| Raise (e : exn).

Arguments Ok {A} a.
Arguments Raise {A} e.

(** ** The world: a file tree and a journal *)

(** A node of the tree under [/sys].  A regular file has a text and the two
    permissions the program depends on; a directory has its listing, in the
    order [os.listdir] returns it. *)
Inductive node : Type :=
| RegularFile (content : string) (readable writable : bool)
| Directory (entries : list string).

(** One entry of the journal per file that is opened: a read, a write that
    went through (with the text written), a write the system refused for lack
    of privilege. *)
Inductive event : Type :=
| EvRead (path : string)
| EvWrite (path data : string)
| EvDenied (path data : string).

(** The tree is keyed by absolute path.  What the kernel answers to a later
    read is the kernel's business, not the file's: a write is recorded in the
    journal and leaves the snapshot as it is (the program never reads an
    endpoint it writes). *)
Record world : Type := World {
  fs : gmap string node;
  journal : list event
}.

Definition record (ev : event) (w : world) : world :=
  World (fs w) (journal w ++ [ev]).

(** ** The monad of file operations *)

Definition M (A : Type) : Type := world -> result A * world.

Definition ret {A} (a : A) : M A := fun w => (Ok a, w).

Definition raise {A} (e : exn) : M A := fun w => (Raise e, w).

Definition lift {A} (r : result A) : M A := fun w => (r, w).

Definition bind {A B} (c : M A) (k : A -> M B) : M B :=
  fun w =>
    match c w with
    | (Ok a, w') => k a w'
    | (Raise e, w') => (Raise e, w')
    end.

Notation "x <- c ;; k" := (bind c (fun x => k))
  (at level 90, c at next level, right associativity).

(** [try: body / except <catches>: handler]. *)
Definition try_except {A} (body : M A) (catches : exn -> bool) (handler : M A)
  : M A :=
  fun w =>
    match body w with
    | (Raise e, w') => if catches e then handler w' else (Raise e, w')
    | done => done
    end.

(** [for x in xs: body x], for a body that neither breaks nor continues. *)
Fixpoint for_each {A} (xs : list A) (body : A -> M unit) : M unit :=
  match xs with
  | [] => ret tt
  | x :: rest => _ <- body x ;; for_each rest body
  end.

(** ** The operating system interface *)

Definition sep : string := "/".

Definition endswith_sep (s : string) : bool :=
  match String.length s with
  | O => false
  | S n => String.eqb (substring n 1 s) sep
  end.

(** [os.path.join(a, *p)] of [posixpath]: a component that starts with the
    separator restarts the path. *)
Definition join2 (path b : string) : string :=
  if String.prefix sep b then b
  else if String.eqb path "" || endswith_sep path then path +:+ b
  else path +:+ sep +:+ b.

Definition os_path_join (a : string) (p : list string) : string :=
  fold_left join2 p a.

(** [os.listdir(path)]. *)
Definition os_listdir (path : string) : M (list string) :=
  fun w =>
    match fs w !! path with
    | Some (Directory entries) => (Ok entries, w)
    | Some (RegularFile _ _ _) => (Raise NotADirectoryError, w)
    | None => (Raise FileNotFoundError, w)
    end.

(** [with open(path, "r") as e: return e.read()]. *)
Definition open_read (path : string) : M string :=
  fun w =>
    match fs w !! path with
    | Some (RegularFile content true _) => (Ok content, record (EvRead path) w)
    | Some (RegularFile _ false _) => (Raise PermissionError, w)
    | Some (Directory _) => (Raise IsADirectoryError, w)
    | None => (Raise FileNotFoundError, w)
    end.

(** [with open(path, "w") as e: return e.write(data)]: the number of
    characters written.  The monitor's directory creates no file, so a path
    that names nothing is not found. *)
Definition open_write (path data : string) : M Z :=
  fun w =>
    match fs w !! path with
    | Some (RegularFile _ _ true) =>
        (Ok (Z.of_nat (String.length data)), record (EvWrite path data) w)
    | Some (RegularFile _ _ false) =>
        (Raise PermissionError, record (EvDenied path data) w)
    | Some (Directory _) => (Raise IsADirectoryError, w)
    | None => (Raise FileNotFoundError, w)
    end.

(** ** Strings: the two patterns, [lower], [str] *)

Definition is_digit (c : ascii) : bool :=
  (48 <=? nat_of_ascii c)%nat && (nat_of_ascii c <=? 57)%nat.

Definition newline : string := String (ascii_of_nat 10) EmptyString.

Fixpoint drop_prefix (p s : string) : option string :=
  match p, s with
  | EmptyString, _ => Some s
  | String a p', String b s' => if Ascii.eqb a b then drop_prefix p' s' else None
  | String _ _, EmptyString => None
  end.

(** [re.match(r"^<word>\d$", s)]: the word, one digit, and the end of the
    string or a last line feed before it.  Node names are ASCII, where [\d]
    is a digit from 0 to 9. *)
Definition re_match_word_digit (word s : string) : bool :=
  match drop_prefix word s with
  | Some (String d rest) =>
      is_digit d && (String.eqb rest "" || String.eqb rest newline)
  | _ => false
  end.

Definition lower_ascii (c : ascii) : ascii :=
  let n := nat_of_ascii c in
  if (65 <=? n)%nat && (n <=? 90)%nat then ascii_of_nat (n + 32) else c.

(** [s.lower()] on an ASCII string. *)
Fixpoint lower (s : string) : string :=
  match s with
  | EmptyString => EmptyString
  | String c rest => String (lower_ascii c) (lower rest)
  end.

(** [x in xs] for strings. *)
Definition str_in (x : string) (xs : list string) : bool :=
  existsb (String.eqb x) xs.

(** [str(n)] for an int. *)
Definition str (n : Z) : string := NilZero.string_of_int (Z.to_int n).

(** ** Numbers *)

(** A Python float that comes from a sensor text or from numpy: a rational,
    an infinity, or not a number. *)
Inductive pyfloat : Type :=
| Finite (q : Q)
| Infinite (negative : bool)
| NaN.

(** The two parsing builtins; [None] is their [ValueError]. *)
Class Builtins : Type := {
  int_of_text : string -> option Z;
  float_of_text : string -> option pyfloat
}.

(** [int(text)]. *)
Definition py_int_text `{Builtins} (text : string) : result Z :=
  match int_of_text text with
  | Some n => Ok n
  | None => Raise (ValueError "invalid literal for int() with base 10")
  end.

(** [float(text)]. *)
Definition py_float_text `{Builtins} (text : string) : result pyfloat :=
  match float_of_text text with
  | Some x => Ok x
  | None => Raise (ValueError "could not convert string to float")
  end.

(** Rounding towards zero. *)
Definition Qtrunc (q : Q) : Z := Z.quot (Qnum q) (Z.pos (Qden q)).

(** [int(x)] for such a float. *)
Definition py_int_float (x : pyfloat) : result Z :=
  match x with
  | Finite q => Ok (Qtrunc q)
  | Infinite _ => Raise OverflowError
  | NaN => Raise (ValueError "cannot convert float NaN to integer")
  end.

(** *** binary64 *)

Definition prec : Z := 53.
Definition emax : Z := 1024.

(** The float nearest to an int; Python refuses an int beyond the range. *)
Definition float_of_int (n : Z) : result spec_float :=
  match binary_normalize prec emax n 0 false with
  | S754_infinity _ => Raise OverflowError
  | f => Ok f
  end.

(** [a / b] for two ints: the correctly rounded quotient. *)
Definition int_truediv (a b : Z) : result spec_float :=
  if (b =? 0)%Z then Raise ZeroDivisionError
  else if (a =? 0)%Z then Ok (S754_zero (b <? 0)%Z)
  else
    let '(q, e, l) := SFdiv_core_binary prec emax (Z.abs a) 0 (Z.abs b) 0 in
    match binary_round_aux prec emax (xorb (a <? 0)%Z (b <? 0)%Z) q e l with
    | S754_infinity _ => Raise OverflowError
    | f => Ok f
    end.

(** [f * n] for a float and an int. *)
Definition float_mul_int (f : spec_float) (n : Z) : result spec_float :=
  match float_of_int n with
  | Ok g => Ok (SFmul prec emax f g)
  | Raise e => Raise e
  end.

(** [int(f)]: the integer part. *)
Definition int_of_float (f : spec_float) : result Z :=
  match f with
  | S754_zero _ => Ok 0%Z
  | S754_finite s m e =>
      let magnitude := Z.shiftl (Z.pos m) e in
      Ok (if s then (- magnitude)%Z else magnitude)
  | S754_infinity _ => Raise OverflowError
  | S754_nan => Raise (ValueError "cannot convert float NaN to integer")
  end.

(** [np.float64(q)]: the binary64 number nearest to a rational, to even on a
    tie, and an infinity beyond the range.  It is the rational itself when
    the rational is a binary64 number. *)
Definition b64 (q : Q) : spec_float :=
  if (Qnum q =? 0)%Z then S754_zero false
  else
    let '(m, e, l) :=
      SFdiv_core_binary prec emax (Z.abs (Qnum q)) 0 (Z.pos (Qden q)) 0 in
    binary_round_aux prec emax (Qnum q <? 0)%Z m e l.

(** A binary64 number as a Python float: the rational [m * 2 ^ e] in lowest
    terms. *)
Definition value (f : spec_float) : pyfloat :=
  match f with
  | S754_zero _ => Finite 0
  | S754_finite s m e =>
      let magnitude :=
        if (0 <=? e)%Z then inject_Z (Z.pos m * 2 ^ e)
        else Qred (Z.pos m # Z.to_pos (2 ^ (- e))) in
      Finite (if s then (- magnitude)%Q else magnitude)
  | S754_infinity s => Infinite s
  | S754_nan => NaN
  end.

Definition is_nan (f : spec_float) : bool :=
  match f with S754_nan => true | _ => false end.

(** [x / n] for a Python float and a positive int: the binary64 quotient. *)
Definition py_float_div (x : pyfloat) (n : positive) : pyfloat :=
  match x with
  | Finite q => value (SFdiv prec emax (b64 q) (b64 (inject_Z (Z.pos n))))
  | other => other
  end.

(** A value that is an int on some paths and a float on others. *)
Inductive pynum : Type :=
| PyInt (n : Z)
| PyFloat (f : spec_float).

(** [int(v)]. *)
Definition py_int (v : pynum) : result Z :=
  match v with
  | PyInt n => Ok n
  | PyFloat f => int_of_float f
  end.

(** ** Module-level constants *)

Definition ROOT_DIR : string := "/sys/class/drm".
Definition HWMON_DIR : string := "device/hwmon".

(** ** class Card *)

Module Card.

(** The word of [HWMON_REGEX = r"^hwmon\d$"]. *)
Definition HWMON_REGEX : string := "hwmon".

Definition AMD_FIELDS : list string :=
  ["temp1_input"; "pwm1_max"; "pwm1_min"; "pwm1_enable"; "pwm1"].

Record t : Type := Build {
  _id : string;
  _monitor : string;
  _endpoints : gmap string string
}.

(** The loop of [__init__]: the last matching node is the monitor; with no
    match the attribute stays unset. *)
Definition find_monitor (nodes : list string) : option string :=
  fold_left
    (fun monitor node =>
       if re_match_word_digit HWMON_REGEX node then Some node else monitor)
    nodes None.

Definition bookkeeping (endpoint : string) : bool :=
  str_in endpoint ["device"; "power"; "subsystem"; "uevent"].

(** [_load_endpoints], called while the object is being built: reading an
    unset [_monitor] is an [AttributeError]. *)
Definition _load_endpoints (card_id : string) (monitor : option string)
  : M (gmap string string) :=
  match monitor with
  | None => raise (AttributeError "_monitor")
  | Some mon =>
      let _dir := os_path_join ROOT_DIR [card_id; HWMON_DIR; mon] in
      entries <- os_listdir _dir ;;
      ret (fold_left
             (fun _endpoints endpoint =>
                if bookkeeping endpoint then _endpoints
                else <[endpoint := os_path_join _dir [endpoint]]> _endpoints)
             entries ∅)
  end.

Definition __init__ (card_id : string) : M t :=
  nodes <- os_listdir (os_path_join ROOT_DIR [card_id; HWMON_DIR]) ;;
  let monitor := find_monitor nodes in
  endpoints <- _load_endpoints card_id monitor ;;
  ret (Build card_id (default "" monitor) endpoints).

Fixpoint verify_fields (endpoints : gmap string string) (fields : list string)
  : result unit :=
  match fields with
  | [] => Ok tt
  | endpoint :: rest =>
      match endpoints !! endpoint with
      | None => Raise FileNotFoundError
      | Some _ => verify_fields endpoints rest
      end
  end.

(** [_verify_card]: no caller in the program. *)
Definition _verify_card (self : t) : result unit :=
  verify_fields (_endpoints self) AMD_FIELDS.

(** [self._endpoints[endpoint]]. *)
Definition endpoint_path (self : t) (endpoint : string) : M string :=
  match _endpoints self !! endpoint with
  | Some path => ret path
  | None => raise (KeyError endpoint)
  end.

Definition read_endpoint (self : t) (endpoint : string) : M string :=
  path <- endpoint_path self endpoint ;;
  open_read path.

Definition is_PermissionError (e : exn) : bool :=
  match e with PermissionError => true | _ => false end.

(** [sys.exit(1)]. *)
Definition sys_exit {A} (code : Z) : M A := raise (SystemExit code).

Definition write_endpoint (self : t) (endpoint : string) (data : Z) : M Z :=
  try_except
    (path <- endpoint_path self endpoint ;;
     open_write path (str data))
    is_PermissionError
    (sys_exit 1).

Definition is_KeyError (e : exn) : bool :=
  match e with KeyError _ => true | _ => false end.

Definition fan_speed `{Builtins} (self : t) : M Z :=
  try_except
    (text <- read_endpoint self "fan1_input" ;;
     lift (py_int_text text))
    is_KeyError
    (ret 0%Z).

Definition gpu_temp `{Builtins} (self : t) : M pyfloat :=
  text <- read_endpoint self "temp1_input" ;;
  x <- lift (py_float_text text) ;;
  ret (py_float_div x 1000).

Definition fan_max `{Builtins} (self : t) : M Z :=
  text <- read_endpoint self "pwm1_max" ;;
  lift (py_int_text text).

Definition fan_min `{Builtins} (self : t) : M Z :=
  text <- read_endpoint self "pwm1_min" ;;
  lift (py_int_text text).

Definition system_controlled_fan : Z := 2.
Definition manual_control : Z := 1.

Definition set_system_controlled_fan (self : t) (state : bool) : M unit :=
  _ <- write_endpoint self "pwm1_enable"
         (if state then system_controlled_fan else manual_control) ;;
  ret tt.

(** [self.fan_max / 100 * speed]. *)
Definition scale (maximum speed : Z) : result spec_float :=
  match int_truediv maximum 100 with
  | Ok ratio => float_mul_int ratio speed
  | Raise e => Raise e
  end.

Definition set_fan_speed `{Builtins} (self : t) (speed : Z) : M Z :=
  speed <-
    (if (speed >=? 100)%Z then
       maximum <- fan_max self ;; ret (PyInt maximum)
     else if (speed <=? 0)%Z then
       minimum <- fan_min self ;; ret (PyInt minimum)
     else
       maximum <- fan_max self ;;
       scaled <- lift (scale maximum speed) ;;
       ret (PyFloat scaled)) ;;
  _ <- set_system_controlled_fan self false ;;
  duty <- lift (py_int speed) ;;
  write_endpoint self "pwm1" duty.

End Card.

(** ** class Scanner *)

Module Scanner.

(** The word of [CARD_REGEX = r"^card\d$"]. *)
Definition CARD_REGEX : string := "card".

(** [d[k] = v] on a dictionary kept in insertion order. *)
Fixpoint dict_set {V} (d : list (string * V)) (k : string) (v : V)
  : list (string * V) :=
  match d with
  | [] => [(k, v)]
  | (k', v') :: rest =>
      if String.eqb k' k then (k', v) :: rest else (k', v') :: dict_set rest k v
  end.

Definition is_FileNotFoundError (e : exn) : bool :=
  match e with FileNotFoundError => true | _ => false end.

(** [cards_to_scan and node.lower() not in [c.lower() for c in cards_to_scan]]:
    [None] and the empty list are both false. *)
Definition filtered_out (cards_to_scan : option (list string)) (node : string)
  : bool :=
  match cards_to_scan with
  | None | Some [] => false
  | Some allowed => negb (str_in (lower node) (map lower allowed))
  end.

(** The loop of [_get_cards] over the listing, [cards] being the dictionary
    built so far. *)
Fixpoint scan_nodes (cards_to_scan : option (list string)) (nodes : list string)
  (cards : list (string * Card.t)) : M (list (string * Card.t)) :=
  match nodes with
  | [] => ret cards
  | node :: rest =>
      if re_match_word_digit CARD_REGEX node then
        if filtered_out cards_to_scan node then
          scan_nodes cards_to_scan rest cards
        else
          cards' <- try_except
                      (card <- Card.__init__ node ;;
                       ret (dict_set cards node card))
                      is_FileNotFoundError
                      (ret cards) ;;
          scan_nodes cards_to_scan rest cards'
      else scan_nodes cards_to_scan rest cards
  end.

Definition _get_cards (cards_to_scan : option (list string))
  : M (list (string * Card.t)) :=
  nodes <- os_listdir ROOT_DIR ;;
  scan_nodes cards_to_scan nodes [].

Record t : Type := Build { cards : list (string * Card.t) }.

Definition __init__ (cards : option (list string)) : M t :=
  found <- _get_cards cards ;;
  ret (Build found).

End Scanner.

(** ** class Curve *)

(** [x < y]. *)
Definition Qltb (x y : Q) : bool := negb (Qle_bool y x).

(** Sequencing of code that raises and touches no file. *)
Definition rbind {A B} (r : result A) (k : A -> result B) : result B :=
  match r with
  | Ok a => k a
  | Raise e => Raise e
  end.

Notation "x <~ r ;; k" := (rbind r (fun x => k))
  (at level 90, r at next level, right associativity).

(** *** The numpy operations the class uses *)

(** [np.array(points)] for a list of rows: rows of one length make a
    two-dimensional array, the empty list a one-dimensional one, and rows of
    different lengths are refused. *)
Definition np_array (points : list (list Q)) : result (list (list Q)) :=
  match points with
  | [] => Ok []
  | row :: rest =>
      if forallb (fun r => (length r =? length row)%nat) rest then Ok points
      else Raise (ValueError "inhomogeneous shape")
  end.

(** [a[:, k]]: an [IndexError] on the one-dimensional empty array and on a
    column the rows do not have. *)
Definition column (k : nat) (a : list (list Q)) : result (list Q) :=
  match a with
  | [] => Raise IndexError
  | row :: _ =>
      if (k <? length row)%nat then Ok (map (fun r => nth k r 0%Q) a)
      else Raise IndexError
  end.

Definition np_min (a : list Q) : result Q :=
  match a with
  | [] => Raise (ValueError "zero-size array to reduction operation minimum")
  | x :: rest => Ok (fold_left (fun m y => if Qltb y m then y else m) rest x)
  end.

Definition np_max (a : list Q) : result Q :=
  match a with
  | [] => Raise (ValueError "zero-size array to reduction operation maximum")
  | x :: rest => Ok (fold_left (fun m y => if Qltb m y then y else m) rest x)
  end.

(** [np.diff(a)]: [a[i+1] - a[i]]. *)
Fixpoint np_diff (a : list Q) : list Q :=
  match a with
  | x :: (y :: _) as rest => (y - x)%Q :: np_diff rest
  | _ => []
  end.

(** [np.any(a <op> c)] is [existsb] of the comparison. *)
Definition np_any (test : Q -> bool) (a : list Q) : bool := existsb test a.

(** The arithmetic of [np.interp] between the points [(x0, y0)] and
    [(x1, y1)], in binary64, as numpy's compiled code writes it:
    [slope = (y1 - y0) / (x1 - x0)], then [slope * (x - x0) + y0]; when that
    is not a number, [slope * (x - x1) + y1], and [y0] when this is not a
    number either and [y0 == y1].  No operation is fused with another. *)
Definition segment (x0 y0 x1 y1 x : Q) : pyfloat :=
  let slope :=
    SFdiv prec emax (SFsub prec emax (b64 y1) (b64 y0))
      (SFsub prec emax (b64 x1) (b64 x0)) in
  let res :=
    SFadd prec emax (SFmul prec emax slope (SFsub prec emax (b64 x) (b64 x0)))
      (b64 y0) in
  if is_nan res then
    let res' :=
      SFadd prec emax
        (SFmul prec emax slope (SFsub prec emax (b64 x) (b64 x1))) (b64 y1) in
    if is_nan res' && Qeq_bool y0 y1 then Finite y0 else value res'
  else value res.

(** The search of [np.interp] to the right of the point [(x0, y0)], which is
    at or below [x]: past every point that is at or below [x]; then the value
    of the last of them when [x] is on it or no point is left, and the
    arithmetic of the segment that starts there otherwise.  On temperatures
    that increase this is the index numpy's search returns. *)
Fixpoint interp_from (x x0 y0 : Q) (xp fp : list Q) : pyfloat :=
  match xp, fp with
  | x1 :: xp', y1 :: fp' =>
      if Qle_bool x1 x then interp_from x x1 y1 xp' fp'
      else if Qeq_bool x0 x then Finite y0
      else segment x0 y0 x1 y1 x
  | _, _ => Finite y0
  end.

(** [np.interp(x, xp, fp)] with the default [left] and [right]: [fp[-1]]
    above [xp[-1]], [fp[0]] below [xp[0]].  [xp] is expected to increase, and
    numpy does not check it. *)
Definition np_interp (x : Q) (xp fp : list Q) : result pyfloat :=
  match xp, fp with
  | [], _ => Raise (ValueError "array of sample points is empty")
  | x0 :: xp', y0 :: fp' =>
      if negb (length xp' =? length fp')%nat then
        Raise (ValueError "fp and xp are not of the same length.")
      else if Qltb (List.last xp' x0) x then Ok (Finite (List.last fp' y0))
      else if Qltb x x0 then Ok (Finite y0)
      else Ok (interp_from x x0 y0 xp' fp')
  | _ :: _, [] => Raise (ValueError "fp and xp are not of the same length.")
  end.

Module Curve.

Record t : Type := Build {
  points : list (list Q);
  temps : list Q;
  speeds : list Q
}.

(** A backslash at the end of a line inside a string literal joins the next
    line to it, indentation included. *)
Definition continuation : string := "                        ".

Definition negative_speeds : string :=
  "Fan curve contains negative speeds, " +:+ continuation
  +:+ "speed should be in [0,100]".

Definition speeds_above_100 : string :=
  "Fan curve contains speeds greater than 100, " +:+ continuation
  +:+ "speed should be in [0,100]".

Definition temps_not_increasing : string :=
  "Fan curve points should be strictly monotonically increasing, "
  +:+ continuation +:+ "configuration error ?".

Definition speeds_decreasing : string :=
  "Curve fan speeds should be monotonically increasing, " +:+ continuation
  +:+ "configuration error ?".

Definition below_floor : string := "Lowest speed value to be set to 4".

Definition __init__ (points : list (list Q)) : result t :=
  a <~ np_array points ;;
  temps <~ column 0 a ;;
  speeds <~ column 1 a ;;
  lowest <~ np_min speeds ;;
  if Qltb lowest 0 then Raise (ValueError negative_speeds) else
  highest <~ np_max speeds ;;
  if Qltb 100 highest then Raise (ValueError speeds_above_100) else
  if np_any (fun d => Qle_bool d 0) (np_diff temps) then
    Raise (ValueError temps_not_increasing) else
  if np_any (fun d => Qltb d 0) (np_diff speeds) then
    Raise (ValueError speeds_decreasing) else
  lowest <~ np_min speeds ;;
  if Qle_bool lowest 3 then Raise (ValueError below_floor) else
  Ok (Build a temps speeds).

Definition get_speed (self : t) (temp : Q) : result pyfloat :=
  np_interp temp (temps self) (speeds self).

End Curve.

(** ** class FanController *)

Module FanController.

(** What the constructor reads of the configuration: [config.get("cards")]
    and [config.get("speed_matrix")]. *)
Record config : Type := Config {
  config_cards : option (list string);
  config_speed_matrix : list (list Q)
}.

Record t : Type := Build {
  _scanner : Scanner.t;
  curve : Curve.t;
  _frequency : Z
}.

Definition __init__ (cfg : config) : M t :=
  scanner <- Scanner.__init__ (config_cards cfg) ;;
  if (length (Scanner.cards scanner) <? 1)%nat then Card.sys_exit 1
  else
    curve <- lift (Curve.__init__ (config_speed_matrix cfg)) ;;
    ret (Build scanner curve 1).

(** The speed the loop derives from a temperature:
    [int(self.curve.get_speed(int(temp)))], then the clamp at zero. *)
Definition speed_for (curve : Curve.t) (temp : pyfloat) : result Z :=
  degrees <~ py_int_float temp ;;
  percent <~ Curve.get_speed curve (inject_Z degrees) ;;
  speed <~ py_int_float percent ;;
  Ok (if (speed <? 0)%Z then 0%Z else speed).

(** The body of the [for] loop of [main] for one card.  The arguments of the
    debug message are evaluated before it is emitted: three more reads. *)
Definition body `{Builtins} (curve : Curve.t) (entry : string * Card.t)
  : M unit :=
  let '(name, card) := entry in
  temp <- Card.gpu_temp card ;;
  speed <- lift (speed_for curve temp) ;;
  _ <- Card.fan_speed card ;;
  _ <- Card.fan_min card ;;
  _ <- Card.fan_max card ;;
  _ <- Card.set_fan_speed card speed ;;
  ret tt.

(** One round of the [while True] loop. *)
Definition tick `{Builtins} (self : t) : M unit :=
  for_each (Scanner.cards (_scanner self)) (body (curve self)).

(** The first [rounds] rounds of [main]; the loop itself has no exit but an
    exception. *)
Fixpoint main `{Builtins} (self : t) (rounds : nat) : M unit :=
  match rounds with
  | O => ret tt
  | S rounds' => _ <- tick self ;; main self rounds'
  end.

End FanController.

(** ** The interactive monitor *)

(** [d.get(k)] on the dictionary of cards: [None] for a missing key. *)
Fixpoint dict_get {V} (d : list (string * V)) (k : string) : option V :=
  match d with
  | [] => None
  | (k', v) :: rest => if String.eqb k' k then Some v else dict_get rest k
  end.

(** The rows of [show_table]: for each card of the registry, in its order,
    the name, the fan speed and the temperature, read in this order.  The
    table itself and the texts of its cells are the display library's. *)
Fixpoint show_table `{Builtins} (cards : list (string * Card.t))
  : M (list (string * Z * pyfloat)) :=
  match cards with
  | [] => ret []
  | (name, card) :: rest =>
      fan_speed <- Card.fan_speed card ;;
      gpu_temp <- Card.gpu_temp card ;;
      rows <- show_table rest ;;
      ret ((name, fan_speed, gpu_temp) :: rows)
  end.

(** [for _ in range(n): live.update(show_table(cards))]. *)
Fixpoint refresh `{Builtins} (n : nat) (cards : list (string * Card.t))
  : M unit :=
  match n with
  | O => ret tt
  | S n' => _ <- show_table cards ;; refresh n' cards
  end.

(** [monitor()] when the first prompt returns [get]: forty tables, then
    [sys.exit(1)].  The branch of [set] formats its log messages with [%d] on
    the text of an answer; what becomes of such a call is the logging
    handler's, and that branch is left out. *)
Definition monitor_get `{Builtins} : M unit :=
  scanner <- Scanner.__init__ None ;;
  _ <- refresh 40 (Scanner.cards scanner) ;;
  Card.sys_exit 1.

(** ** The daemon *)

Definition CONFIG_LOCATIONS : list string :=
  ["/etc/amdgpu-fan.yml"; "/home/j/amdgpu-fan.yml"].

(** The double quote. *)
Definition quote : string := String (ascii_of_nat 34) EmptyString.

(** The lines of [default_fan_config]. *)
Definition default_fan_config_lines : list string :=
  [ "#Fan Control Matrix. [<Temp in C>,<Fanspeed in %>]";
    "speed_matrix:";
    "- [4, 4]";
    "- [30, 33]";
    "- [45, 50]";
    "- [60, 66]";
    "- [65, 69]";
    "- [70, 75]";
    "- [75, 89]";
    "- [80, 100]";
    "";
    "# Current Min supported value is 4 due to driver bug";
    "# optional";
    "# cards:";
    "# can be any card returned from `ls /sys/class/drm | grep " +:+ quote
      +:+ "^card[[:digit:]]$" +:+ quote +:+ "`";
    "# - card0" ].

(** [default_fan_config]: every line ends with a line feed. *)
Definition default_fan_config : string :=
  fold_right (fun line text => line +:+ newline +:+ text) ""
    default_fan_config_lines.

(** [yaml.safe_load] with what the program reads of its value: [None] for an
    empty document, otherwise the two entries the controller gets. *)
Class Yaml : Type := {
  safe_load : string -> result (option FanController.config)
}.

(** [os.path.isfile(path)]. *)
Definition os_path_isfile (path : string) : M bool :=
  fun w =>
    match fs w !! path with
    | Some (RegularFile _ _ _) => (Ok true, w)
    | _ => (Ok false, w)
    end.

(** The path up to and including its last separator, and what follows. *)
Fixpoint split_at_last_sep (path : string) : option (string * string) :=
  match path with
  | EmptyString => None
  | String c rest =>
      match split_at_last_sep rest with
      | Some (head, tail) => Some (String c head, tail)
      | None =>
          if Ascii.eqb c "/" then Some (String c EmptyString, rest) else None
      end
  end.

Fixpoint all_sep (s : string) : bool :=
  match s with
  | EmptyString => true
  | String c rest => Ascii.eqb c "/" && all_sep rest
  end.

(** [s.rstrip("/")]. *)
Fixpoint rstrip_sep (s : string) : string :=
  match s with
  | EmptyString => EmptyString
  | String c rest => if all_sep rest && Ascii.eqb c "/" then EmptyString
                     else String c (rstrip_sep rest)
  end.

(** [os.path.dirname(path)] and [os.path.basename(path)] of [posixpath]. *)
Definition os_path_split (path : string) : string * string :=
  match split_at_last_sep path with
  | Some (head, tail) =>
      (if all_sep head then head else rstrip_sep head, tail)
  | None => ("", path)
  end.

(** [with open(path, "w") as f: f.write(data); f.flush()] for an absolute
    path: the file is replaced, or created in its directory when the
    directory exists. *)
Definition write_file (path data : string) : M unit :=
  fun w =>
    match fs w !! path with
    | Some (RegularFile _ readable true) =>
        (Ok tt,
         World (<[path := RegularFile data readable true]> (fs w))
           (journal w ++ [EvWrite path data]))
    | Some (RegularFile _ _ false) =>
        (Raise PermissionError, record (EvDenied path data) w)
    | Some (Directory _) => (Raise IsADirectoryError, w)
    | None =>
        let '(dir, name) := os_path_split path in
        match fs w !! dir with
        | Some (Directory entries) =>
            (Ok tt,
             World (<[path := RegularFile data true true]>
                      (<[dir := Directory (entries ++ [name])]> (fs w)))
               (journal w ++ [EvWrite path data]))
        | Some (RegularFile _ _ _) => (Raise NotADirectoryError, w)
        | None => (Raise FileNotFoundError, w)
        end
    end.

Definition load_config `{Yaml} (path : string)
  : M (option FanController.config) :=
  text <- open_read path ;;
  lift (safe_load text).

(** The [for] loop of [run_as_daemon]: the first location that is a file is
    loaded, and the loop breaks. *)
Fixpoint first_config `{Yaml} (locations : list string)
  : M (option FanController.config) :=
  match locations with
  | [] => ret None
  | location :: rest =>
      found <- os_path_isfile location ;;
      if found then load_config location else first_config rest
  end.

(** [run_as_daemon()], with the first [rounds] rounds of the loop.
    [FanController(None)] fails on [config.get]. *)
Definition run_as_daemon `{Builtins} `{Yaml} (rounds : nat) : M unit :=
  config <- first_config CONFIG_LOCATIONS ;;
  config <-
    match config with
    | Some _ => ret config
    | None =>
        _ <- write_file (List.last CONFIG_LOCATIONS "") default_fan_config ;;
        load_config (List.last CONFIG_LOCATIONS "")
    end ;;
  match config with
  | None => raise (AttributeError "get")
  | Some cfg =>
      self <- FanController.__init__ cfg ;;
      FanController.main self rounds
  end.

(** ** Concrete builtins and worlds for the examples *)

(** The value of a run of decimal digits. *)
Fixpoint digits_value (s : string) (acc : Z) : option Z :=
  match s with
  | EmptyString => Some acc
  | String c rest =>
      if is_digit c then
        digits_value rest (10 * acc + Z.of_nat (nat_of_ascii c - 48))%Z
      else None
  end.

(** The text without the line feed the kernel ends it with. *)
Fixpoint chomp (s : string) : string :=
  match s with
  | EmptyString => EmptyString
  | String c rest =>
      if String.eqb rest newline then String c EmptyString
      else String c (chomp rest)
  end.

(** The reading of [int(text)] in the examples.  It agrees with Python on the
    texts a monitor file holds (an optional minus sign, decimal digits, a
    line feed at the end) and refuses every other text. *)
Definition decimal (text : string) : option Z :=
  match chomp text with
  | EmptyString => None
  | String "-" (String _ _ as ds) => Z.opp <$> digits_value ds 0
  | ds => digits_value ds 0
  end.

#[export] Instance monitor_texts : Builtins := {|
  int_of_text := decimal;
  float_of_text := fun text => (fun n => Finite (inject_Z n)) <$> decimal text
|}.

(** The tree of one card: its monitor directory with the given files. *)
Definition card_tree (card monitor : string) (files : list (string * node))
  : list (string * node) :=
  let hwmon := os_path_join ROOT_DIR [card; HWMON_DIR] in
  let dir := os_path_join hwmon [monitor] in
  (hwmon, Directory [monitor])
  :: (dir, Directory (map fst files))
  :: map (fun f => (os_path_join dir [fst f], snd f)) files.

(** A world with the listing of [ROOT_DIR] and the trees of the cards, and an
    empty journal. *)
Definition world_of (listing : list string) (trees : list (string * node))
  : world :=
  World (list_to_map ((ROOT_DIR, Directory listing) :: trees)) [].

(** A monitor file the process may read and write. *)
Definition rw (content : string) : node := RegularFile content true true.

(** A monitor file the process may read only. *)
Definition ro (content : string) : node := RegularFile content true false.

(** The files of a monitor that has every endpoint, with the given sensor
    text and duty maximum, and one bookkeeping entry. *)
Definition monitor_files (temp1_input pwm1_max : string)
  : list (string * node) :=
  [ ("temp1_input", ro (temp1_input +:+ newline));
    ("fan1_input", ro ("1200" +:+ newline));
    ("pwm1_max", ro (pwm1_max +:+ newline));
    ("pwm1_min", ro ("0" +:+ newline));
    ("pwm1_enable", rw ("2" +:+ newline));
    ("pwm1", rw ("0" +:+ newline));
    ("device", Directory []) ].

Definition without (name : string) (files : list (string * node))
  : list (string * node) :=
  filter (fun f => negb (String.eqb (fst f) name)) files.

Definition read_only (name : string) (files : list (string * node))
  : list (string * node) :=
  map (fun f =>
         if String.eqb (fst f) name then
           match snd f with
           | RegularFile content readable _ =>
               (fst f, RegularFile content readable false)
           | other => (fst f, other)
           end
         else f)
      files.

(** Two cards, the first without the duty endpoint [pwm1]. *)
Definition world_without_pwm1 : world :=
  world_of ["card0"; "card1"; "version"]
    (card_tree "card0" "hwmon0" (without "pwm1" (monitor_files "45000" "255"))
     ++ card_tree "card1" "hwmon1" (monitor_files "61000" "255")).

(** Two cards, the first without the tachometer [fan1_input] and with a duty
    maximum of 58. *)
Definition world_max_58 : world :=
  world_of ["card0"; "card1"]
    (card_tree "card0" "hwmon0"
       (without "fan1_input" (monitor_files "61000" "58"))
     ++ card_tree "card1" "hwmon1" (monitor_files "45000" "255")).

(** Two cards, the first with a mode switch the process may not write. *)
Definition world_denied : world :=
  world_of ["card0"; "card1"]
    (card_tree "card0" "hwmon0"
       (read_only "pwm1_enable" (monitor_files "61000" "255"))
     ++ card_tree "card1" "hwmon1" (monitor_files "45000" "255")).

(** One card whose [device/hwmon] directory lists no monitor. *)
Definition world_without_monitor : world :=
  world_of ["card0"]
    [(os_path_join ROOT_DIR ["card0"; HWMON_DIR], Directory [])].

(** A world with no card. *)
Definition world_no_card : world := world_of ["version"] [].

(** The registry a scan of the world returns (empty when the scan raises). *)
Definition scanned (w : world) : list (string * Card.t) :=
  match Scanner._get_cards None w with
  | (Ok cards, _) => cards
  | (Raise _, _) => []
  end.

(** The card registered under a name, or a card with no endpoint. *)
Definition card_named (name : string) (w : world) : Card.t :=
  match filter (fun entry => String.eqb (fst entry) name) (scanned w) with
  | (_, card) :: _ => card
  | [] => Card.Build name "" ∅
  end.

(** The points of [test_curve]. *)
Definition test_points : list (list Q) :=
  [[10; 10]; [20; 20]; [30; 30]; [70; 80]; [80; 100]]%Q.

Definition test_curve : Curve.t :=
  Curve.Build test_points [10; 20; 30; 70; 80]%Q [10; 20; 30; 80; 100]%Q.

(** Two points, the first with a speed of three and a half percent. *)
Definition low_points : list (list Q) := [[10; 7 # 2]; [20; 50]]%Q.

Definition low_curve : Curve.t :=
  Curve.Build low_points [10; 20]%Q [7 # 2; 50]%Q.

(** The controller built on a world with the points of [test_curve], or one
    with no card when the constructor raises. *)
Definition controller (w : world) : FanController.t :=
  match FanController.__init__ (FanController.Config None test_points) w with
  | (Ok self, _) => self
  | (Raise _, _) => FanController.Build (Scanner.Build []) test_curve 1
  end.

(** Whether [int(maximum / 100 * speed)] is the integer part of
    [maximum * speed / 100]. *)
Definition scale_agrees (maximum speed : Z) : bool :=
  match Card.scale maximum speed with
  | Ok f =>
      match int_of_float f with
      | Ok duty => (duty =? maximum * speed / 100)%Z
      | Raise _ => false
      end
  | Raise _ => false
  end.

(** The points of the default configuration. *)
Definition default_points : list (list Q) :=
  [[4; 4]; [30; 33]; [45; 50]; [60; 66]; [65; 69]; [70; 75]; [75; 89];
   [80; 100]]%Q.

(** The loader of the examples.  It knows two documents: the empty one, which
    [yaml.safe_load] turns into [None], and the default text, a mapping with
    the eight points under [speed_matrix] and no entry [cards].  It refuses
    every other text. *)
Definition example_documents (text : string)
  : result (option FanController.config) :=
  if String.eqb text "" then Ok None
  else if String.eqb text default_fan_config then
    Ok (Some (FanController.Config None default_points))
  else Raise (ValueError "document").

#[export] Instance example_yaml : Yaml := {| safe_load := example_documents |}.

(** The world with more files. *)
Definition with_files (files : list (string * node)) (w : world) : world :=
  World (list_to_map files ∪ fs w) (journal w).

(** Two cards and an empty directory [/home/j]. *)
Definition world_home : world :=
  with_files [("/home/j", Directory [])] world_max_58.

(** Two cards and the default text at the first location. *)
Definition world_etc : world :=
  with_files [("/etc/amdgpu-fan.yml", ro default_fan_config)] world_max_58.

(** Two cards, an empty document at the first location and a configuration of
    one point at the last. *)
Definition world_empty_etc : world :=
  with_files
    [ ("/etc/amdgpu-fan.yml", ro "");
      ("/home/j", Directory ["amdgpu-fan.yml"]);
      ("/home/j/amdgpu-fan.yml", rw "speed_matrix: [[50, 40]]") ]
    world_max_58.


(** Two points whose slope, 68 / 28, is not a binary64 number. *)
Definition slope_points : list (list Q) := [[0; 4]; [28; 72]]%Q.

Definition slope_curve : Curve.t :=
  Curve.Build slope_points [0; 28]%Q [4; 72]%Q.



(** ** Predicates of the statements *)

(** [R] holds between each element and the next, from [x] on. *)
Fixpoint chain (R : Q -> Q -> Prop) (x : Q) (l : list Q) : Prop :=
  match l with
  | [] => True
  | y :: rest => R x y /\ chain R y rest
  end.

(** [R] holds between each element of the list and the next. *)
Definition from_first (R : Q -> Q -> Prop) (l : list Q) : Prop :=
  match l with
  | [] => True
  | x :: rest => chain R x rest
  end.

(** The rows of a list of (temperature, speed) points. *)
Definition rows (pts : list (Q * Q)) : list (list Q) :=
  map (fun p => [fst p; snd p]) pts.

(** What the constructor establishes: as many temperatures as speeds and at
    least one, temperatures that increase, speeds that do not decrease, the
    lowest above 3 and the highest at most 100. *)
Definition valid (c : Curve.t) : Prop :=
  exists t0 ts s0 ss,
    Curve.temps c = t0 :: ts /\ Curve.speeds c = s0 :: ss /\
    length ts = length ss /\ chain Qlt t0 ts /\ chain Qle s0 ss /\
    (3 < s0)%Q /\ (List.last ss s0 <= 100)%Q.


Definition is_read (ev : event) : Prop :=
  match ev with EvRead _ => True | _ => False end.

Definition denied (ev : event) : bool :=
  match ev with EvDenied _ _ => true | _ => false end.

(** The writes one call of [set_fan_speed] leaves in the journal, [mode] and
    [duty] being the paths of [pwm1_enable] and [pwm1]: none, the mode switch
    alone (written or refused), or the mode switch written and then the duty
    (written or refused). *)
Inductive mode_then_duty (mode duty : option string) : list event -> Prop :=
| no_write : mode_then_duty mode duty []
| mode_refused p :
    mode = Some p ->
    mode_then_duty mode duty [EvDenied p (str Card.manual_control)]
| mode_alone p :
    mode = Some p ->
    mode_then_duty mode duty [EvWrite p (str Card.manual_control)]
| duty_refused p q d :
    mode = Some p -> duty = Some q ->
    mode_then_duty mode duty
      [EvWrite p (str Card.manual_control); EvDenied q (str d)]
| duty_written p q d :
    mode = Some p -> duty = Some q ->
    mode_then_duty mode duty
      [EvWrite p (str Card.manual_control); EvWrite q (str d)].

(** A run is quiet when no write was refused, and fatal when it raised
    [SystemExit(1)] right after the one refused write it made. *)
Definition quiet_or_fatal {A} (r : result A) (evs : list event) : Prop :=
  Forall (fun ev => denied ev = false) evs \/
  (r = Raise (SystemExit 1) /\
   exists before p d,
     evs = before ++ [EvDenied p d] /\
     Forall (fun ev => denied ev = false) before).

(** Every run of [c] extends the journal by a quiet or fatal suffix. *)
Definition fails_fast {A} (c : M A) : Prop :=
  forall w, exists evs,
    journal (snd (c w)) = journal w ++ evs /\ quiet_or_fatal (fst (c w)) evs.

(** Every run of [c] extends the journal by reads only. *)
Definition reads_only {A} (c : M A) : Prop :=
  forall w, exists evs,
    journal (snd (c w)) = journal w ++ evs /\ Forall is_read evs.

(** No run of [c] changes the world: no file is opened. *)
Definition touches_nothing {A} (c : M A) : Prop := forall w, snd (c w) = w.

(** The first statement of [set_fan_speed]: the value it goes on to write,
    chosen from the percentage and the bound it reads. *)
Definition chosen_value `{Builtins} (self : Card.t) (speed : Z) : M pynum :=
  if (speed >=? 100)%Z then
    maximum <- Card.fan_max self ;; ret (PyInt maximum)
  else if (speed <=? 0)%Z then
    minimum <- Card.fan_min self ;; ret (PyInt minimum)
  else
    maximum <- Card.fan_max self ;;
    scaled <- lift (Card.scale maximum speed) ;;
    ret (PyFloat scaled).

(** Whether a name is made of ASCII characters. *)
Fixpoint ascii_name (s : string) : bool :=
  match s with
  | EmptyString => true
  | String c rest => (nat_of_ascii c <? 128)%nat && ascii_name rest
  end.

(** Whether every name that a directory of the tree lists is an ASCII name.
    On such names the [\d] of the two patterns is a digit from 0 to 9. *)
Definition ascii_names (w : world) : bool :=
  forallb
    (fun entry =>
       match snd entry with
       | Directory entries => forallb ascii_name entries
       | RegularFile _ _ _ => true
       end)
    (map_to_list (fs w)).

(** What the loop may leave in the journal for a card: a read, the manual
    value on the card's mode switch, a number on its duty endpoint. *)
Definition manual_event (card : Card.t) (ev : event) : Prop :=
  match ev with
  | EvRead _ => True
  | EvWrite p d | EvDenied p d =>
      (Card._endpoints card !! "pwm1_enable" = Some p /\
       d = str Card.manual_control) \/
      (Card._endpoints card !! "pwm1" = Some p /\ exists n, d = str n)
  end.

(** The same for a registry: the card is one of its cards. *)
Definition loop_event (cards : list (string * Card.t)) (ev : event) : Prop :=
  match ev with
  | EvRead _ => True
  | _ => exists name card, In (name, card) cards /\ manual_event card ev
  end.

(** Every run of [c] extends the journal by events that satisfy [P]. *)
Definition emits {A} (P : event -> Prop) (c : M A) : Prop :=
  forall w, exists evs,
    journal (snd (c w)) = journal w ++ evs /\ Forall P evs.

Definition is_readb (ev : event) : bool :=
  match ev with EvRead _ => true | _ => false end.

(** The writes of a journal, refused ones included. *)
Definition writes_of (evs : list event) : list event :=
  List.filter (fun ev => negb (is_readb ev)) evs.

(** The two writes of a call of [set_fan_speed] that returns. *)
Definition mode_and_duty (card : Card.t) (chunk : list event) : Prop :=
  exists p q d,
    Card._endpoints card !! "pwm1_enable" = Some p /\
    Card._endpoints card !! "pwm1" = Some q /\
    chunk = [EvWrite p (str Card.manual_control); EvWrite q (str d)].

(** A run of [c] that returns has read, and then written the mode switch and
    the duty of the card. *)
Definition returns_after_writes {A} (card : Card.t) (c : M A) : Prop :=
  forall w a w',
    c w = (Ok a, w') ->
    exists reads chunk,
      journal w' = journal w ++ reads ++ chunk /\
      Forall is_read reads /\ mode_and_duty card chunk.

(** No run of [c] changes the file tree. *)
Definition keeps_files {A} (c : M A) : Prop :=
  forall w, fs (snd (c w)) = fs w.

(** Whether the path names a regular file. *)
Definition is_file (w : world) (path : string) : bool :=
  match fs w !! path with
  | Some (RegularFile _ _ _) => true
  | _ => false
  end.

(** The two configuration files. *)
Definition etc_config : string := "/etc/amdgpu-fan.yml".
Definition home_config : string := "/home/j/amdgpu-fan.yml".

(** What the daemon does with the value the loader gave: the controller and
    its loop on a configuration, the failure of [config.get] on [None]. *)
Definition run_with `{Builtins} (loaded : result (option FanController.config))
  (rounds : nat) : M unit :=
  match loaded with
  | Ok (Some cfg) =>
      self <- FanController.__init__ cfg ;; FanController.main self rounds
  | Ok None => raise (AttributeError "get")
  | Raise e => raise e
  end.

(** * Properties *)

(** ** Comparisons of rationals *)

Section Comparisons.

Local Open Scope Q_scope.

Lemma Qltb_lt x y : Qltb x y = true <-> x < y.
Proof.
  unfold Qltb. rewrite negb_true_iff.
  split; intros H.
  - apply Qnot_le_lt. intros Hle. apply Qle_bool_iff in Hle. congruence.
  - destruct (Qle_bool y x) eqn:E; [|reflexivity].
    apply Qle_bool_iff in E. lra.
Qed.

Lemma Qltb_ge x y : Qltb x y = false <-> y <= x.
Proof.
  unfold Qltb. rewrite negb_false_iff. apply Qle_bool_iff.
Qed.

Lemma Qle_bool_gt x y : Qle_bool x y = false <-> y < x.
Proof.
  rewrite <- Qltb_lt. unfold Qltb. destruct (Qle_bool x y); simpl; split; congruence.
Qed.

End Comparisons.

(** ** Chains and last elements *)

Section Chains.

Local Open Scope Q_scope.

(** The last element of a list that is not empty ignores the default. *)
Lemma last_cons_default (l : list Q) : forall y1 y0 : Q,
  List.last (y1 :: l) y0 = List.last l y1.
Proof.
  induction l as [|a l IH]; intros y1 y0; [reflexivity|].
  change (List.last (y1 :: a :: l) y0) with (List.last (a :: l) y0).
  rewrite !IH. reflexivity.
Qed.

Lemma Forall_last (P : Q -> Prop) (l : list Q) : forall d,
  Forall P (d :: l) -> P (List.last l d).
Proof.
  induction l as [|a l IH]; intros d H.
  - now inversion H.
  - rewrite last_cons_default. apply IH. now inversion H.
Qed.

Lemma chain_lt_le x l : chain Qlt x l -> chain Qle x l.
Proof.
  revert x. induction l as [|y l IH]; simpl; intros x; [tauto|].
  intros [H1 H2]. split; [lra | auto].
Qed.

Lemma chain_le_last y0 fp : chain Qle y0 fp -> y0 <= List.last fp y0.
Proof.
  revert y0. induction fp as [|y1 fp IH]; simpl chain; intros y0.
  - intros _. simpl. lra.
  - intros [H1 H2]. rewrite last_cons_default. specialize (IH _ H2). lra.
Qed.

(** Every element of a chain lies between the first and the last. *)
Lemma chain_le_lookup x l i t :
  chain Qle x l -> (x :: l) !! i = Some t -> x <= t /\ t <= List.last l x.
Proof.
  revert x i. induction l as [|y l IH]; intros x i Hc Hi.
  - destruct i as [|i]; simpl in Hi; [|destruct i; discriminate].
    injection Hi as <-. simpl. lra.
  - destruct Hc as [H1 H2]. rewrite last_cons_default.
    destruct i as [|i]; simpl in Hi.
    + injection Hi as <-. pose proof (chain_le_last _ _ H2). lra.
    + destruct (IH y i H2 Hi). lra.
Qed.



End Chains.

(** ** The walk of [np.interp] *)

Section Walk.

Local Open Scope Q_scope.

(** At the temperature of its starting point the walk is the point's speed. *)
Lemma interp_from_start x xp : forall fp x0 y0,
  chain Qlt x0 xp -> x == x0 -> interp_from x x0 y0 xp fp = Finite y0.
Proof.
  intros fp x0 y0 Hx He. destruct xp as [|x1 xp], fp as [|y1 fp]; try reflexivity.
  simpl. destruct Hx as [Hx1 _].
  destruct (Qle_bool x1 x) eqn:E1; [apply Qle_bool_iff in E1; lra|].
  assert (E2 : Qeq_bool x0 x = true) by (apply Qeq_bool_iff; lra).
  now rewrite E2.
Qed.

(** At or above the last temperature the walk is the last speed. *)
Lemma interp_from_end x xp : forall fp x0 y0,
  length xp = length fp -> chain Qlt x0 xp -> List.last xp x0 <= x ->
  interp_from x x0 y0 xp fp = Finite (List.last fp y0).
Proof.
  induction xp as [|x1 xp IH]; intros [|y1 fp] x0 y0 Hlen Hx Hl;
    try discriminate; [reflexivity|].
  destruct Hx as [Hx1 Hx].
  rewrite (last_cons_default xp) in Hl. rewrite (last_cons_default fp).
  pose proof (chain_le_last _ _ (chain_lt_le _ _ Hx)) as H1.
  assert (E : Qle_bool x1 x = true) by (apply Qle_bool_iff; lra).
  simpl interp_from. rewrite E. apply IH; auto.
Qed.

(** At the temperature of the point [i] the walk is the speed of that
    point. *)
Lemma interp_from_at_point x i : forall xp fp x0 y0 t s,
  length xp = length fp -> chain Qlt x0 xp ->
  (x0 :: xp) !! i = Some t -> (y0 :: fp) !! i = Some s -> x == t ->
  interp_from x x0 y0 xp fp = Finite s.
Proof.
  induction i as [|i IH]; intros xp fp x0 y0 t s Hlen Hx Ht Hs He.
  - simpl in Ht, Hs. injection Ht as <-. injection Hs as <-.
    now apply interp_from_start.
  - destruct xp as [|x1 xp]; [discriminate|]. destruct fp as [|y1 fp]; [discriminate|].
    destruct Hx as [Hx1 Hx].
    change ((x1 :: xp) !! i = Some t) in Ht.
    change ((y1 :: fp) !! i = Some s) in Hs.
    destruct (chain_le_lookup _ _ _ _ (chain_lt_le _ _ Hx) Ht) as [Hle _].
    simpl interp_from.
    assert (E : Qle_bool x1 x = true) by (apply Qle_bool_iff; lra).
    rewrite E. apply (IH xp fp x1 y1 t s); auto.
Qed.

(** Strictly between the points [i] and [i + 1] the walk is the arithmetic
    of their segment. *)
Lemma interp_from_segment x i : forall xp fp x0 y0 t0 t1 s0 s1,
  length xp = length fp -> chain Qlt x0 xp ->
  (x0 :: xp) !! i = Some t0 -> (x0 :: xp) !! S i = Some t1 ->
  (y0 :: fp) !! i = Some s0 -> (y0 :: fp) !! S i = Some s1 ->
  t0 < x -> x < t1 ->
  interp_from x x0 y0 xp fp = segment t0 s0 t1 s1 x.
Proof.
  induction i as [|i IH]; intros xp fp x0 y0 t0 t1 s0 s1 Hlen Hx Ht0 Ht1 Hs0 Hs1 H0 H1.
  - destruct xp as [|x1 xp]; [discriminate|]. destruct fp as [|y1 fp]; [discriminate|].
    simpl in Ht0, Ht1, Hs0, Hs1.
    injection Ht0 as <-. injection Ht1 as <-. injection Hs0 as <-. injection Hs1 as <-.
    simpl interp_from.
    assert (E1 : Qle_bool x1 x = false) by (apply Qle_bool_gt; lra).
    assert (E2 : Qeq_bool x0 x = false).
    { destruct (Qeq_bool x0 x) eqn:E; [|reflexivity].
      apply Qeq_bool_iff in E. lra. }
    now rewrite E1, E2.
  - destruct xp as [|x1 xp]; [discriminate|]. destruct fp as [|y1 fp]; [discriminate|].
    destruct Hx as [Hx1 Hx].
    change ((x1 :: xp) !! i = Some t0) in Ht0.
    change ((x1 :: xp) !! S i = Some t1) in Ht1.
    change ((y1 :: fp) !! i = Some s0) in Hs0.
    change ((y1 :: fp) !! S i = Some s1) in Hs1.
    destruct (chain_le_lookup _ _ _ _ (chain_lt_le _ _ Hx) Ht0) as [Hle _].
    simpl interp_from.
    assert (E : Qle_bool x1 x = true) by (apply Qle_bool_iff; lra).
    rewrite E. apply (IH xp fp x1 y1 t0 t1 s0 s1); auto.
Qed.

End Walk.

(** ** What the constructor checks *)

Section Constructor.

Local Open Scope Q_scope.

Lemma fold_min_le (l : list Q) : forall m,
  let r := fold_left (fun m y => if Qltb y m then y else m) l m in
  r <= m /\ Forall (fun y => r <= y) l.
Proof.
  induction l as [|a l IH]; intros m; simpl.
  - split; [lra | constructor].
  - destruct (Qltb a m) eqn:E.
    + apply Qltb_lt in E. destruct (IH a) as [H1 H2].
      split; [lra | constructor; auto].
    + apply Qltb_ge in E. destruct (IH m) as [H1 H2].
      split; [lra | constructor; [lra | auto]].
Qed.

Lemma fold_max_ge (l : list Q) : forall m,
  let r := fold_left (fun m y => if Qltb m y then y else m) l m in
  m <= r /\ Forall (fun y => y <= r) l.
Proof.
  induction l as [|a l IH]; intros m; simpl.
  - split; [lra | constructor].
  - destruct (Qltb m a) eqn:E.
    + apply Qltb_lt in E. destruct (IH a) as [H1 H2].
      split; [lra | constructor; auto].
    + apply Qltb_ge in E. destruct (IH m) as [H1 H2].
      split; [lra | constructor; [lra | auto]].
Qed.

Lemma np_min_le a m : np_min a = Ok m -> Forall (fun y => m <= y) a.
Proof.
  destruct a as [|x rest]; simpl; [discriminate|].
  intros [= <-]. destruct (fold_min_le rest x) as [H1 H2].
  constructor; auto.
Qed.

Lemma np_max_ge a m : np_max a = Ok m -> Forall (fun y => y <= m) a.
Proof.
  destruct a as [|x rest]; simpl; [discriminate|].
  intros [= <-]. destruct (fold_max_ge rest x) as [H1 H2].
  constructor; auto.
Qed.

(** The check on [np.diff(self.temps)] passes on increasing temperatures
    only. *)
Lemma diff_positive x l :
  np_any (fun d => Qle_bool d 0) (np_diff (x :: l)) = false -> chain Qlt x l.
Proof.
  revert x. induction l as [|y l IH]; intros x; [simpl; auto|].
  change (np_diff (x :: y :: l)) with ((y - x) :: np_diff (y :: l)).
  unfold np_any. simpl existsb. rewrite orb_false_iff. intros [H1 H2].
  apply Qle_bool_gt in H1. split; [lra | apply IH, H2].
Qed.

(** The check on [np.diff(self.speeds)] passes on speeds that do not
    decrease only. *)
Lemma diff_nonnegative x l :
  np_any (fun d => Qltb d 0) (np_diff (x :: l)) = false -> chain Qle x l.
Proof.
  revert x. induction l as [|y l IH]; intros x; [simpl; auto|].
  change (np_diff (x :: y :: l)) with ((y - x) :: np_diff (y :: l)).
  unfold np_any. simpl existsb. rewrite orb_false_iff. intros [H1 H2].
  apply Qltb_ge in H1. split; [lra | apply IH, H2].
Qed.

Lemma column_length k a col : column k a = Ok col -> length col = length a.
Proof.
  destruct a as [|row a]; simpl; [discriminate|].
  destruct (k <? length row)%nat; [|discriminate].
  intros [= <-]. simpl. now rewrite length_map.
Qed.

Lemma fold_min_in (l : list Q) : forall m,
  In (fold_left (fun m y => if Qltb y m then y else m) l m) (m :: l).
Proof.
  induction l as [|a l IH]; intros m; simpl; [auto|].
  destruct (Qltb a m).
  - right. apply IH.
  - destruct (IH m) as [E | E]; [left; exact E | right; right; exact E].
Qed.

Lemma fold_max_in (l : list Q) : forall m,
  In (fold_left (fun m y => if Qltb m y then y else m) l m) (m :: l).
Proof.
  induction l as [|a l IH]; intros m; simpl; [auto|].
  destruct (Qltb m a).
  - right. apply IH.
  - destruct (IH m) as [E | E]; [left; exact E | right; right; exact E].
Qed.

Lemma np_min_in a m : np_min a = Ok m -> In m a.
Proof.
  destruct a as [|x rest]; simpl; [discriminate|].
  intros [= <-]. apply fold_min_in.
Qed.

Lemma np_max_in a m : np_max a = Ok m -> In m a.
Proof.
  destruct a as [|x rest]; simpl; [discriminate|].
  intros [= <-]. apply fold_max_in.
Qed.

Lemma diff_positive_complete x l :
  chain Qlt x l -> np_any (fun d => Qle_bool d 0) (np_diff (x :: l)) = false.
Proof.
  revert x. induction l as [|y l IH]; intros x; [reflexivity|].
  intros [H1 H2].
  change (np_diff (x :: y :: l)) with ((y - x) :: np_diff (y :: l)).
  unfold np_any. simpl existsb. rewrite orb_false_iff. split.
  - apply Qle_bool_gt. lra.
  - apply IH, H2.
Qed.

Lemma diff_nonnegative_complete x l :
  chain Qle x l -> np_any (fun d => Qltb d 0) (np_diff (x :: l)) = false.
Proof.
  revert x. induction l as [|y l IH]; intros x; [reflexivity|].
  intros [H1 H2].
  change (np_diff (x :: y :: l)) with ((y - x) :: np_diff (y :: l)).
  unfold np_any. simpl existsb. rewrite orb_false_iff. split.
  - apply Qltb_ge. lra.
  - apply IH, H2.
Qed.

Lemma np_array_rows pts : np_array (rows pts) = Ok (rows pts).
Proof.
  destruct pts as [|p rest]; [reflexivity|].
  unfold rows. simpl.
  replace (forallb _ _) with true; [reflexivity|].
  symmetry. apply forallb_forall. intros r Hr.
  apply in_map_iff in Hr. destruct Hr as (q & <- & _). reflexivity.
Qed.

Lemma column_rows p rest :
  column 0 (rows (p :: rest)) = Ok (map fst (p :: rest)) /\
  column 1 (rows (p :: rest)) = Ok (map snd (p :: rest)).
Proof.
  unfold column, rows. simpl. split; do 2 f_equal; rewrite map_map; reflexivity.
Qed.

(** A curve the constructor returned is valid. *)
Lemma init_valid points c : Curve.__init__ points = Ok c -> valid c.
Proof.
  unfold Curve.__init__, rbind.
  destruct (np_array points) as [a|] eqn:Ha; [|discriminate].
  destruct (column 0 a) as [ts|] eqn:Ht; [|discriminate].
  destruct (column 1 a) as [ss|] eqn:Hs; [|discriminate].
  destruct (np_min ss) as [lowest|] eqn:Hmin; [|discriminate].
  destruct (Qltb lowest 0); [discriminate|].
  destruct (np_max ss) as [highest|] eqn:Hmax; [|discriminate].
  destruct (Qltb 100 highest) eqn:Hhi; [discriminate|].
  destruct (np_any _ (np_diff ts)) eqn:Hdt; [discriminate|].
  destruct (np_any _ (np_diff ss)) eqn:Hds; [discriminate|].
  destruct (Qle_bool lowest 3) eqn:Hlo; [discriminate|].
  intros [= <-]. unfold valid; simpl.
  pose proof (column_length _ _ _ Ht) as Lt.
  pose proof (column_length _ _ _ Hs) as Ls.
  destruct ts as [|t0 ts]; [destruct a; [discriminate Ht | discriminate Lt]|].
  destruct ss as [|s0 ss]; [discriminate Hmin|].
  exists t0, ts, s0, ss.
  apply Qltb_ge in Hhi. apply Qle_bool_gt in Hlo.
  apply np_min_le in Hmin. apply np_max_ge in Hmax.
  apply diff_positive in Hdt. apply diff_nonnegative in Hds.
  repeat split; auto.
  - simpl in Lt, Ls. lia.
  - inversion Hmin; subst. lra.
  - apply (Forall_last (fun y => y <= highest)) in Hmax. lra.
Qed.

End Constructor.

(** ** The curve *)

Section CurveProperties.

Local Open Scope Q_scope.

(** On a curve with as many temperatures as speeds, [get_speed] returns, and
    its value is one of three: the last speed, the first, the walk's. *)
Lemma get_speed_value c t0 ts s0 ss x :
  Curve.temps c = t0 :: ts -> Curve.speeds c = s0 :: ss ->
  length ts = length ss ->
  Curve.get_speed c x =
    Ok (if Qltb (List.last ts t0) x then Finite (List.last ss s0)
        else if Qltb x t0 then Finite s0
        else interp_from x t0 s0 ts ss).
Proof.
  intros Ht Hs Hlen. unfold Curve.get_speed, np_interp. rewrite Ht, Hs.
  apply Nat.eqb_eq in Hlen. rewrite Hlen. simpl negb. cbv iota.
  destruct (Qltb (List.last ts t0) x); [reflexivity|].
  destruct (Qltb x t0); reflexivity.
Qed.

(** At or below the first temperature the value is the first speed. *)
Lemma get_speed_low c x :
  valid c -> x <= hd 0 (Curve.temps c) ->
  Curve.get_speed c x = Ok (Finite (hd 0 (Curve.speeds c))).
Proof.
  intros (x0 & ts & y0 & ss & Ht & Hs & Hlen & Hts & Hss & _ & _).
  pose proof (chain_le_last _ _ (chain_lt_le _ _ Hts)) as Hlast.
  rewrite (get_speed_value c x0 ts y0 ss x Ht Hs Hlen), Ht, Hs. simpl hd.
  intros Hle.
  destruct (Qltb (List.last ts x0) x) eqn:E1.
  - apply Qltb_lt in E1.
    assert (Hl : List.last ts x0 == x0) by lra.
    exfalso. lra.
  - destruct (Qltb x x0) eqn:E0; [reflexivity|]. apply Qltb_ge in E0.
    assert (He : x == x0) by lra.
    now rewrite (interp_from_start x ts ss x0 y0 Hts He).
Qed.

(** At or above the last temperature the value is the last speed. *)
Lemma get_speed_high c x :
  valid c -> List.last (Curve.temps c) 0 <= x ->
  Curve.get_speed c x = Ok (Finite (List.last (Curve.speeds c) 0)).
Proof.
  intros (x0 & ts & y0 & ss & Ht & Hs & Hlen & Hts & Hss & _ & _).
  pose proof (chain_le_last _ _ (chain_lt_le _ _ Hts)) as Hlast.
  rewrite (get_speed_value c x0 ts y0 ss x Ht Hs Hlen), Ht, Hs.
  rewrite !last_cons_default. intros Hge.
  destruct (Qltb (List.last ts x0) x); [reflexivity|].
  destruct (Qltb x x0) eqn:E0; [apply Qltb_lt in E0; lra|].
  now rewrite (interp_from_end x ts ss x0 y0 Hlen Hts Hge).
Qed.

(** At the temperature of a control point the value is the speed of that
    point. *)
Lemma get_speed_on_point c (i : nat) t s x :
  valid c ->
  Curve.temps c !! i = Some t -> Curve.speeds c !! i = Some s -> x == t ->
  Curve.get_speed c x = Ok (Finite s).
Proof.
  intros (x0 & ts & y0 & ss & Hts & Hss & Hlen & Hct & Hcs & _ & _) Ht Hs He.
  rewrite Hts in Ht. rewrite Hss in Hs.
  rewrite (get_speed_value c x0 ts y0 ss x Hts Hss Hlen).
  destruct (chain_le_lookup _ _ _ _ (chain_lt_le _ _ Hct) Ht) as [Ha Hb].
  destruct (Qltb (List.last ts x0) x) eqn:E1; [apply Qltb_lt in E1; lra|].
  destruct (Qltb x x0) eqn:E0; [apply Qltb_lt in E0; lra|].
  f_equal. now apply (interp_from_at_point x i ts ss x0 y0 t s).
Qed.

(** Strictly between two consecutive control points the value is the
    arithmetic of their segment. *)
Lemma get_speed_inside c (i : nat) t0 t1 s0 s1 x :
  valid c ->
  Curve.temps c !! i = Some t0 -> Curve.temps c !! S i = Some t1 ->
  Curve.speeds c !! i = Some s0 -> Curve.speeds c !! S i = Some s1 ->
  t0 < x -> x < t1 ->
  Curve.get_speed c x = Ok (segment t0 s0 t1 s1 x).
Proof.
  intros (x0 & ts & y0 & ss & Hts & Hss & Hlen & Hct & Hcs & _ & _)
    Ht0 Ht1 Hs0 Hs1 H0 H1.
  rewrite Hts in Ht0, Ht1. rewrite Hss in Hs0, Hs1.
  rewrite (get_speed_value c x0 ts y0 ss x Hts Hss Hlen).
  destruct (chain_le_lookup _ _ _ _ (chain_lt_le _ _ Hct) Ht0) as [Ha _].
  destruct (chain_le_lookup _ _ _ _ (chain_lt_le _ _ Hct) Ht1) as [_ Hb].
  destruct (Qltb (List.last ts x0) x) eqn:E1; [apply Qltb_lt in E1; lra|].
  destruct (Qltb x x0) eqn:E0; [apply Qltb_lt in E0; lra|].
  f_equal. now apply (interp_from_segment x i ts ss x0 y0 t0 t1 s0 s1).
Qed.





(** C3, amended: the four values of the test curve and, on every curve the
    constructor returned, the first speed at or below the first temperature,
    the last speed at or above the last, the speed of a control point at its
    temperature, and strictly between two consecutive points the binary64
    result of [(s1 - s0) / (t1 - t0) * (temp - t0) + s0], each operation
    rounded. *)
Theorem get_speed_interpolates :
  (exists c,
     Curve.__init__ [[10; 10]; [20; 20]; [30; 30]; [70; 80]; [80; 100]] = Ok c /\
     Curve.get_speed c 60 = Ok (Finite (135 # 2)) /\
     Curve.get_speed c 50 = Ok (Finite 55) /\
     Curve.get_speed c 80 = Ok (Finite 100) /\
     Curve.get_speed c 0 = Ok (Finite 10)) /\
  (forall points c temp,
     Curve.__init__ points = Ok c ->
     (temp <= hd 0 (Curve.temps c) ->
      Curve.get_speed c temp = Ok (Finite (hd 0 (Curve.speeds c)))) /\
     (List.last (Curve.temps c) 0 <= temp ->
      Curve.get_speed c temp = Ok (Finite (List.last (Curve.speeds c) 0))) /\
     (forall (i : nat) t0 t1 s0 s1,
        Curve.temps c !! i = Some t0 -> Curve.temps c !! S i = Some t1 ->
        Curve.speeds c !! i = Some s0 -> Curve.speeds c !! S i = Some s1 ->
        (temp == t0 -> Curve.get_speed c temp = Ok (Finite s0)) /\
        (temp == t1 -> Curve.get_speed c temp = Ok (Finite s1)) /\
        (t0 < temp -> temp < t1 ->
         Curve.get_speed c temp = Ok (segment t0 s0 t1 s1 temp)))).
Proof.
  split.
  - exists test_curve. repeat split; vm_compute; reflexivity.
  - intros points c temp Hinit. apply init_valid in Hinit.
    split; [now apply get_speed_low|]. split; [now apply get_speed_high|].
    intros i t0 t1 s0 s1 Ht0 Ht1 Hs0 Hs1. split; [|split].
    + now apply (get_speed_on_point c i t0 s0).
    + now apply (get_speed_on_point c (S i) t1 s1).
    + now apply (get_speed_inside c i t0 t1 s0 s1).
Qed.

(** The general part on the test curve: 60 degrees lies between the points
    [(30, 30)] and [(70, 80)]. *)
Lemma get_speed_interpolates_witness :
  Curve.get_speed test_curve 60 = Ok (segment 30 30 70 80 60).
Proof.
  refine (proj2 (proj2 (proj2 (proj2 (proj2 get_speed_interpolates
                                         test_points test_curve 60 eq_refl))
                                2%nat 30 70 30 80
                                eq_refl eq_refl eq_refl eq_refl)) _ _);
    reflexivity.
Defined.

(** C3 as the specification states it fails: on the curve of the points
    [(0, 4)] and [(28, 72)] the value at 21 degrees is
    54.99999999999999289..., since the slope 68 / 28 is rounded before it is
    multiplied, where the formula of the specification gives 55, in exact
    arithmetic and also in binary64 in the order it is written. *)
Lemma get_speed_rounds_the_slope :
  Curve.__init__ slope_points = Ok slope_curve /\
  Curve.get_speed slope_curve 21
    = Ok (Finite (7740561859543039 # 140737488355328)) /\
  4 + (21 - 0) / (28 - 0) * (72 - 4) == 55 /\
  ~ (7740561859543039 # 140737488355328 == 55) /\
  value
    (SFadd prec emax (b64 4)
       (SFmul prec emax
          (SFdiv prec emax (SFsub prec emax (b64 21) (b64 0))
             (SFsub prec emax (b64 28) (b64 0)))
          (SFsub prec emax (b64 72) (b64 4))))
    = Finite 55.
Proof.
  split; [vm_compute; reflexivity|].
  split; [vm_compute; reflexivity|].
  split; [reflexivity|].
  split; [discriminate|].
  vm_compute. reflexivity.
Qed.

(** C2: a curve whose lowest speed is three and a half percent, below the
    floor of 4, passes the constructor: the last check compares with 3. *)
Theorem init_accepts_speed_below_floor :
  Curve.__init__ [[10; 7 # 2]; [20; 50]] = Ok low_curve /\
  np_min (Curve.speeds low_curve) = Ok (7 # 2) /\
  7 # 2 < 4.
Proof.
  repeat split.
Qed.

(** C9: on that curve [get_speed] returns three and a half at ten degrees, a
    value outside of the interval from 4 to 100. *)
Theorem get_speed_below_floor :
  Curve.__init__ low_points = Ok low_curve /\
  Curve.get_speed low_curve 10 = Ok (Finite (7 # 2)) /\
  ~ (4 <= 7 # 2).
Proof.
  split; [reflexivity|]. split; [reflexivity|].
  unfold Qle; simpl; lia.
Qed.

(** The constructor on a list of at least one point: the first of the five
    checks that fails decides the error, in the order negative speed, speed
    above 100, temperatures that do not increase, speeds that decrease, a
    speed at or below 3; with no failure the curve is built.  The five
    messages differ. *)
Theorem init_first_violation (p : Q * Q) (rest : list (Q * Q)) :
  let pts := p :: rest in
  let temps := map fst pts in
  let speeds := map snd pts in
  (Exists (fun s => s < 0) speeds ->
   Curve.__init__ (rows pts) = Raise (ValueError Curve.negative_speeds)) /\
  (Forall (fun s => 0 <= s) speeds -> Exists (fun s => 100 < s) speeds ->
   Curve.__init__ (rows pts) = Raise (ValueError Curve.speeds_above_100)) /\
  (Forall (fun s => 0 <= s <= 100) speeds -> ~ from_first Qlt temps ->
   Curve.__init__ (rows pts) = Raise (ValueError Curve.temps_not_increasing)) /\
  (Forall (fun s => 0 <= s <= 100) speeds -> from_first Qlt temps ->
   ~ from_first Qle speeds ->
   Curve.__init__ (rows pts) = Raise (ValueError Curve.speeds_decreasing)) /\
  (Forall (fun s => 0 <= s <= 100) speeds -> from_first Qlt temps ->
   from_first Qle speeds -> Exists (fun s => s <= 3) speeds ->
   Curve.__init__ (rows pts) = Raise (ValueError Curve.below_floor)) /\
  (Forall (fun s => 3 < s <= 100) speeds -> from_first Qlt temps ->
   from_first Qle speeds ->
   Curve.__init__ (rows pts) = Ok (Curve.Build (rows pts) temps speeds)) /\
  List.NoDup [Curve.negative_speeds; Curve.speeds_above_100;
         Curve.temps_not_increasing; Curve.speeds_decreasing;
         Curve.below_floor].
Proof.
  intros pts temps speeds.
  destruct (column_rows p rest) as [Ct Cs].
  unfold Curve.__init__. rewrite np_array_rows. cbn [rbind].
  fold pts temps speeds in Ct, Cs |- *. rewrite Ct, Cs. cbn [rbind].
  destruct (np_min speeds) as [lowest|] eqn:Hmin; [|discriminate Hmin].
  destruct (np_max speeds) as [highest|] eqn:Hmax; [|discriminate Hmax].
  cbn [rbind].
  pose proof (np_min_in _ _ Hmin) as Ilo. pose proof (np_min_le _ _ Hmin) as Llo.
  pose proof (np_max_in _ _ Hmax) as Ihi. pose proof (np_max_ge _ _ Hmax) as Lhi.
  rewrite List.Forall_forall in Llo, Lhi.
  assert (Hneg : Qltb lowest 0 = true <-> Exists (fun s => s < 0) speeds).
  { rewrite Qltb_lt, List.Exists_exists. split.
    - intros Hl. exists lowest. auto.
    - intros (s & Hs & Hl). specialize (Llo s Hs). lra. }
  assert (Hbig : Qltb 100 highest = true <-> Exists (fun s => 100 < s) speeds).
  { rewrite Qltb_lt, List.Exists_exists. split.
    - intros Hl. exists highest. auto.
    - intros (s & Hs & Hl). specialize (Lhi s Hs). lra. }
  assert (Hfloor : Qle_bool lowest 3 = true <-> Exists (fun s => s <= 3) speeds).
  { rewrite Qle_bool_iff, List.Exists_exists. split.
    - intros Hl. exists lowest. auto.
    - intros (s & Hs & Hl). specialize (Llo s Hs). lra. }
  assert (Ht : np_any (fun d => Qle_bool d 0) (np_diff temps) = false
               <-> from_first Qlt temps).
  { split; [apply diff_positive | apply diff_positive_complete]. }
  assert (Hs : np_any (fun d => Qltb d 0) (np_diff speeds) = false
               <-> from_first Qle speeds).
  { split; [apply diff_nonnegative | apply diff_nonnegative_complete]. }
  assert (Hrange : forall lo, Forall (fun s => lo <= s <= 100) speeds ->
                      lo <= lowest /\ highest <= 100).
  { intros lo Hr. rewrite List.Forall_forall in Hr.
    split; [apply (Hr lowest Ilo) | apply (Hr highest Ihi)]. }
  repeat split.
  - intros E. apply Hneg in E. now rewrite E.
  - intros Hpos E. rewrite List.Forall_forall in Hpos.
    specialize (Hpos lowest Ilo). apply Qltb_ge in Hpos. rewrite Hpos.
    apply Hbig in E. now rewrite E.
  - intros Hr Hn. destruct (Hrange 0 Hr) as [H0 H1].
    apply Qltb_ge in H0, H1. rewrite H0, H1.
    destruct (np_any _ (np_diff temps)); [reflexivity|].
    exfalso. apply Hn, Ht. reflexivity.
  - intros Hr Hinc Hn. destruct (Hrange 0 Hr) as [H0 H1].
    apply Qltb_ge in H0, H1. rewrite H0, H1.
    apply Ht in Hinc. rewrite Hinc.
    destruct (np_any _ (np_diff speeds)); [reflexivity|].
    exfalso. apply Hn, Hs. reflexivity.
  - intros Hr Hinc Hnd E. destruct (Hrange 0 Hr) as [H0 H1].
    apply Qltb_ge in H0, H1. rewrite H0, H1.
    apply Ht in Hinc. apply Hs in Hnd. rewrite Hinc, Hnd.
    apply Hfloor in E. now rewrite E.
  - intros Hr Hinc Hnd.
    assert (H3 : 3 < lowest /\ highest <= 100).
    { rewrite List.Forall_forall in Hr.
      split; [apply (Hr lowest Ilo) | apply (Hr highest Ihi)]. }
    destruct H3 as [H3 H1].
    assert (H0 : Qltb lowest 0 = false) by (apply Qltb_ge; lra).
    apply Qltb_ge in H1. apply Qle_bool_gt in H3.
    apply Ht in Hinc. apply Hs in Hnd. rewrite H0, H1, Hinc, Hnd, H3.
    reflexivity.
  - repeat (apply List.NoDup_cons; [vm_compute; intuition discriminate|]).
    apply List.NoDup_nil.
Qed.

End CurveProperties.

(** ** The journal of a run *)

Section Journal.

Context `{Builtins}.

Lemma bind_ok {A B} (c : M A) (k : A -> M B) w a w' :
  c w = (Ok a, w') -> bind c k w = k a w'.
Proof. intros E. unfold bind. now rewrite E. Qed.

Lemma bind_raise {A B} (c : M A) (k : A -> M B) w e w' :
  c w = (Raise e, w') -> bind c k w = (Raise e, w').
Proof. intros E. unfold bind. now rewrite E. Qed.

(** *** Computations that only read *)

Lemma reads_only_lift {A} (r : result A) : reads_only (lift r).
Proof. intros w. exists []. simpl. now rewrite app_nil_r. Qed.

Lemma reads_only_ret {A} (a : A) : reads_only (ret a).
Proof. apply (reads_only_lift (Ok a)). Qed.

Lemma reads_only_raise {A} (e : exn) : reads_only (@raise A e).
Proof. apply (reads_only_lift (Raise e)). Qed.

Lemma reads_only_bind {A B} (c : M A) (k : A -> M B) :
  reads_only c -> (forall a, reads_only (k a)) -> reads_only (bind c k).
Proof.
  intros Hc Hk w. destruct (Hc w) as (evs1 & J1 & R1).
  unfold bind. destruct (c w) as [[a|e] w1]; simpl in J1.
  - destruct (Hk a w1) as (evs2 & J2 & R2).
    exists (evs1 ++ evs2). rewrite J2, J1, app_assoc.
    split; [reflexivity | now apply Forall_app].
  - exists evs1. simpl. auto.
Qed.

Lemma reads_only_try_except {A} (body handler : M A) catches :
  reads_only body -> reads_only handler ->
  reads_only (try_except body catches handler).
Proof.
  intros Hb Hh w. destruct (Hb w) as (evs1 & J1 & R1).
  unfold try_except. destruct (body w) as [[a|e] w1]; simpl in J1.
  - exists evs1. simpl. auto.
  - destruct (catches e).
    + destruct (Hh w1) as (evs2 & J2 & R2).
      exists (evs1 ++ evs2). rewrite J2, J1, app_assoc.
      split; [reflexivity | now apply Forall_app].
    + exists evs1. simpl. auto.
Qed.

Lemma reads_only_open_read path : reads_only (open_read path).
Proof.
  intros w. unfold open_read.
  destruct (fs w !! path) as [[content [|] writable | entries]|];
    try (exists []; simpl; rewrite app_nil_r; split; [reflexivity | constructor]).
  exists [EvRead path]. simpl. split; [reflexivity|].
  constructor; [exact I | constructor].
Qed.

Lemma reads_only_endpoint_path self endpoint :
  reads_only (Card.endpoint_path self endpoint).
Proof.
  unfold Card.endpoint_path.
  destruct (Card._endpoints self !! endpoint);
    [apply reads_only_ret | apply reads_only_raise].
Qed.

Lemma reads_only_read_endpoint self endpoint :
  reads_only (Card.read_endpoint self endpoint).
Proof.
  apply reads_only_bind; [apply reads_only_endpoint_path|].
  intros path. apply reads_only_open_read.
Qed.

Lemma reads_only_fan_max self : reads_only (Card.fan_max self).
Proof.
  apply reads_only_bind; [apply reads_only_read_endpoint|].
  intros text. apply reads_only_lift.
Qed.

Lemma reads_only_fan_min self : reads_only (Card.fan_min self).
Proof.
  apply reads_only_bind; [apply reads_only_read_endpoint|].
  intros text. apply reads_only_lift.
Qed.

Lemma reads_only_fan_speed self : reads_only (Card.fan_speed self).
Proof.
  apply reads_only_try_except; [|apply reads_only_ret].
  apply reads_only_bind; [apply reads_only_read_endpoint|].
  intros text. apply reads_only_lift.
Qed.

Lemma reads_only_gpu_temp self : reads_only (Card.gpu_temp self).
Proof.
  apply reads_only_bind; [apply reads_only_read_endpoint|].
  intros text. apply reads_only_bind; [apply reads_only_lift|].
  intros x. apply reads_only_ret.
Qed.

(** *** A write through [write_endpoint] *)

(** The three outcomes of [write_endpoint]: it raises without touching a
    file, the system refuses the write and the process exits with status 1,
    or the text is written. *)
Lemma write_endpoint_cases self endpoint data w :
  (journal (snd (Card.write_endpoint self endpoint data w)) = journal w /\
   exists e, fst (Card.write_endpoint self endpoint data w) = Raise e /\
             e <> SystemExit 1) \/
  (exists p,
     Card._endpoints self !! endpoint = Some p /\
     journal (snd (Card.write_endpoint self endpoint data w))
       = journal w ++ [EvDenied p (str data)] /\
     fst (Card.write_endpoint self endpoint data w) = Raise (SystemExit 1)) \/
  (exists p n,
     Card._endpoints self !! endpoint = Some p /\
     journal (snd (Card.write_endpoint self endpoint data w))
       = journal w ++ [EvWrite p (str data)] /\
     fst (Card.write_endpoint self endpoint data w) = Ok n).
Proof.
  unfold Card.write_endpoint, try_except, bind, Card.endpoint_path.
  destruct (Card._endpoints self !! endpoint) as [p|] eqn:Ep.
  - unfold ret, open_write.
    destruct (fs w !! p) as [[content readable [|] | entries]|]; simpl.
    + right; right. eauto.
    + right; left. eauto.
    + left. split; [reflexivity|]. eexists; split; [reflexivity | discriminate].
    + left. split; [reflexivity|]. eexists; split; [reflexivity | discriminate].
  - left. simpl. split; [reflexivity|].
    eexists; split; [reflexivity | discriminate].
Qed.

End Journal.

(** ** The device operations *)

Section Devices.

Context `{Builtins}.

(** The part of [set_fan_speed] that follows the choice of the value: the
    mode switch, the conversion, the duty. *)
Lemma writes_after_choice self (v : pynum) w :
  let run :=
    (_ <- Card.set_system_controlled_fan self false ;;
     duty <- lift (py_int v) ;;
     Card.write_endpoint self "pwm1" duty) w in
  exists writes,
    journal (snd run) = journal w ++ writes /\
    mode_then_duty (Card._endpoints self !! "pwm1_enable")
      (Card._endpoints self !! "pwm1") writes /\
    (forall n, fst run = Ok n ->
       exists p q d,
         writes = [EvWrite p (str Card.manual_control); EvWrite q (str d)]).
Proof.
  cbv zeta.
  pose proof (write_endpoint_cases self "pwm1_enable" Card.manual_control w)
    as Hmode.
  destruct (Card.write_endpoint self "pwm1_enable" Card.manual_control w)
    as [r1 w1] eqn:E1; simpl in Hmode.
  destruct Hmode as [(J & e & -> & _) | [(p & Ep & J & ->) | (p & n & Ep & J & ->)]].
  - rewrite (bind_raise _ _ w e w1) by (apply bind_raise, E1).
    exists []. simpl. rewrite app_nil_r.
    split; [exact J|]. split; [apply no_write | discriminate].
  - rewrite (bind_raise _ _ w (SystemExit 1) w1) by (apply bind_raise, E1).
    exists [EvDenied p (str Card.manual_control)]. simpl.
    split; [exact J|]. split; [now apply mode_refused | discriminate].
  - rewrite (bind_ok _ _ w tt w1)
      by (unfold Card.set_system_controlled_fan; now rewrite (bind_ok _ _ w n w1 E1)).
    destruct (py_int v) as [duty|e] eqn:Ev.
    + rewrite (bind_ok _ _ w1 duty w1) by reflexivity.
      pose proof (write_endpoint_cases self "pwm1" duty w1) as Hduty.
      destruct (Card.write_endpoint self "pwm1" duty w1) as [r2 w2];
        simpl in Hduty |- *.
      destruct Hduty as [(J2 & e & -> & _) | [(q & Eq & J2 & ->) | (q & m & Eq & J2 & ->)]].
      * exists [EvWrite p (str Card.manual_control)].
        rewrite J2, J. split; [reflexivity|].
        split; [now apply mode_alone | discriminate].
      * exists [EvWrite p (str Card.manual_control); EvDenied q (str duty)].
        rewrite J2, J, <- app_assoc. split; [reflexivity|].
        split; [now apply duty_refused | discriminate].
      * exists [EvWrite p (str Card.manual_control); EvWrite q (str duty)].
        rewrite J2, J, <- app_assoc. split; [reflexivity|].
        split; [now apply duty_written | eauto].
    + rewrite (bind_raise _ _ w1 e w1) by reflexivity.
      exists [EvWrite p (str Card.manual_control)]. simpl.
      split; [exact J|]. split; [now apply mode_alone | discriminate].
Qed.

(** The choice of the value reads and writes nothing else. *)
Lemma reads_only_choice self speed :
  reads_only
    (if (speed >=? 100)%Z then
       maximum <- Card.fan_max self ;; ret (PyInt maximum)
     else if (speed <=? 0)%Z then
       minimum <- Card.fan_min self ;; ret (PyInt minimum)
     else
       maximum <- Card.fan_max self ;;
       scaled <- lift (Card.scale maximum speed) ;;
       ret (PyFloat scaled)).
Proof.
  destruct (speed >=? 100)%Z; [|destruct (speed <=? 0)%Z].
  - apply reads_only_bind; [apply reads_only_fan_max|].
    intros. apply reads_only_ret.
  - apply reads_only_bind; [apply reads_only_fan_min|].
    intros. apply reads_only_ret.
  - apply reads_only_bind; [apply reads_only_fan_max|].
    intros. apply reads_only_bind; [apply reads_only_lift|].
    intros. apply reads_only_ret.
Qed.

Lemma chosen_value_keeps_files self speed w :
  fs (snd (chosen_value self speed w)) = fs w.
Proof.
  assert (R : forall endpoint w0,
            fs (snd (Card.read_endpoint self endpoint w0)) = fs w0).
  { intros endpoint w0.
    unfold Card.read_endpoint, Card.endpoint_path, bind, lift, ret, raise.
    destruct (Card._endpoints self !! endpoint) as [p|]; [|reflexivity].
    unfold open_read.
    destruct (fs w0 !! p) as [[content [|] wr | entries]|]; reflexivity. }
  assert (I : forall endpoint w0,
            fs (snd ((text <- Card.read_endpoint self endpoint ;;
                      lift (py_int_text text)) w0)) = fs w0).
  { intros endpoint w0. unfold bind at 1. specialize (R endpoint w0).
    destruct (Card.read_endpoint self endpoint w0) as [[text|e] w1]; exact R. }
  unfold chosen_value, Card.fan_max, Card.fan_min.
  destruct (speed >=? 100)%Z; [|destruct (speed <=? 0)%Z]; unfold bind at 1.
  - specialize (I "pwm1_max" w).
    destruct ((text <- Card.read_endpoint self "pwm1_max" ;;
               lift (py_int_text text)) w) as [[n|e] w1]; exact I.
  - specialize (I "pwm1_min" w).
    destruct ((text <- Card.read_endpoint self "pwm1_min" ;;
               lift (py_int_text text)) w) as [[n|e] w1]; exact I.
  - specialize (I "pwm1_max" w).
    destruct ((text <- Card.read_endpoint self "pwm1_max" ;;
               lift (py_int_text text)) w) as [[n|e] w1]; [|exact I].
    unfold bind, lift, ret. destruct (Card.scale n speed); exact I.
Qed.

(** A write through [write_endpoint] to a file the process may write. *)
Lemma write_endpoint_writes self endpoint data w p content readable :
  Card._endpoints self !! endpoint = Some p ->
  fs w !! p = Some (RegularFile content readable true) ->
  Card.write_endpoint self endpoint data w
  = (Ok (Z.of_nat (String.length (str data))),
     record (EvWrite p (str data)) w).
Proof.
  intros Ep Ew.
  unfold Card.write_endpoint, try_except, bind, Card.endpoint_path, lift, ret.
  rewrite Ep. unfold open_write. now rewrite Ew.
Qed.

(** What a returning run of the part of [set_fan_speed] that follows the
    choice has written. *)
Lemma writes_of_returning_call self (v : pynum) w n w' :
  (_ <- Card.set_system_controlled_fan self false ;;
   duty <- lift (py_int v) ;;
   Card.write_endpoint self "pwm1" duty) w = (Ok n, w') ->
  exists duty p q,
    py_int v = Ok duty /\
    Card._endpoints self !! "pwm1_enable" = Some p /\
    Card._endpoints self !! "pwm1" = Some q /\
    journal w' = journal w ++
      [EvWrite p (str Card.manual_control); EvWrite q (str duty)].
Proof.
  pose proof (write_endpoint_cases self "pwm1_enable" Card.manual_control w)
    as Hmode.
  destruct (Card.write_endpoint self "pwm1_enable" Card.manual_control w)
    as [r1 w1] eqn:E1; simpl in Hmode.
  destruct Hmode as [(J & e & -> & _) | [(p & Ep & J & ->) | (p & m & Ep & J & ->)]].
  - rewrite (bind_raise _ _ w e w1) by (apply bind_raise, E1). discriminate.
  - rewrite (bind_raise _ _ w (SystemExit 1) w1) by (apply bind_raise, E1).
    discriminate.
  - rewrite (bind_ok _ _ w tt w1)
      by (unfold Card.set_system_controlled_fan; now rewrite (bind_ok _ _ w m w1 E1)).
    destruct (py_int v) as [duty|e] eqn:Ev.
    + rewrite (bind_ok _ _ w1 duty w1) by reflexivity.
      pose proof (write_endpoint_cases self "pwm1" duty w1) as Hduty.
      destruct (Card.write_endpoint self "pwm1" duty w1) as [r2 w2];
        simpl in Hduty.
      destruct Hduty as [(J2 & e & -> & _) | [(q & Eq & J2 & ->) | (q & k & Eq & J2 & ->)]];
        try discriminate.
      intros [= <- <-]. exists duty, p, q.
      rewrite J2, J, <- app_assoc. auto.
    + rewrite (bind_raise _ _ w1 e w1) by reflexivity. discriminate.
Qed.

(** C7: a call of [set_fan_speed] extends the journal by reads and then by
    writes in the order of [mode_then_duty]: the duty endpoint is written, or
    refused, only after the mode switch was written with the manual value.  A
    call that returns has written exactly the manual value to the mode switch
    and then the duty it computed, [int] of the chosen value, to the duty
    endpoint.  And the call does return, with these two writes, whenever the
    value is computed and the two endpoints are files the process may
    write. *)
Theorem set_fan_speed_mode_before_duty self speed w :
  (exists reads writes,
     journal (snd (Card.set_fan_speed self speed w))
       = journal w ++ reads ++ writes /\
     Forall is_read reads /\
     mode_then_duty (Card._endpoints self !! "pwm1_enable")
       (Card._endpoints self !! "pwm1") writes) /\
  (forall n w',
     Card.set_fan_speed self speed w = (Ok n, w') ->
     exists v w1 duty p q,
       chosen_value self speed w = (Ok v, w1) /\ py_int v = Ok duty /\
       Card._endpoints self !! "pwm1_enable" = Some p /\
       Card._endpoints self !! "pwm1" = Some q /\
       journal w' = journal w1 ++
         [EvWrite p (str Card.manual_control); EvWrite q (str duty)]) /\
  (forall v w1 duty p q mode_text mode_readable duty_text duty_readable,
     chosen_value self speed w = (Ok v, w1) -> py_int v = Ok duty ->
     Card._endpoints self !! "pwm1_enable" = Some p ->
     fs w !! p = Some (RegularFile mode_text mode_readable true) ->
     Card._endpoints self !! "pwm1" = Some q ->
     fs w !! q = Some (RegularFile duty_text duty_readable true) ->
     Card.set_fan_speed self speed w
     = (Ok (Z.of_nat (String.length (str duty))),
        World (fs w)
          (journal w1 ++
           [EvWrite p (str Card.manual_control); EvWrite q (str duty)]))).
Proof.
  change (Card.set_fan_speed self speed) with
    (v <- chosen_value self speed ;;
     _ <- Card.set_system_controlled_fan self false ;;
     duty <- lift (py_int v) ;;
     Card.write_endpoint self "pwm1" duty).
  split; [|split].
  - destruct (reads_only_choice self speed w) as (reads & J & R).
    fold (chosen_value self speed) in J.
    destruct (chosen_value self speed w) as [[v|e] w0] eqn:E; simpl in J.
    + rewrite (bind_ok _ _ w v w0 E).
      destruct (writes_after_choice self v w0) as (writes & J2 & Hw & _).
      exists reads, writes. rewrite J2, J, <- app_assoc. auto.
    + rewrite (bind_raise _ _ w e w0 E).
      exists reads, []. simpl. rewrite app_nil_r.
      split; [exact J|]. split; [exact R | apply no_write].
  - intros n w' Hrun.
    destruct (chosen_value self speed w) as [[v|e] w1] eqn:E.
    + rewrite (bind_ok _ _ w v w1 E) in Hrun.
      destruct (writes_of_returning_call self v w1 n w' Hrun)
        as (duty & p & q & Hd & Ep & Eq & J).
      exists v, w1, duty, p, q. auto.
    + rewrite (bind_raise _ _ w e w1 E) in Hrun. discriminate.
  - intros v w1 duty p q mode_text mode_readable duty_text duty_readable
      E Hd Ep Fp Eq Fq.
    pose proof (chosen_value_keeps_files self speed w) as K.
    rewrite E in K. simpl in K.
    rewrite (bind_ok _ _ w v w1 E).
    assert (W1 : Card.set_system_controlled_fan self false w1
                 = (Ok tt, record (EvWrite p (str Card.manual_control)) w1)).
    { unfold Card.set_system_controlled_fan.
      assert (F1 : fs w1 !! p = Some (RegularFile mode_text mode_readable true))
        by now rewrite K.
      rewrite (bind_ok _ _ w1 _ _
                 (write_endpoint_writes self "pwm1_enable" Card.manual_control
                    w1 p mode_text mode_readable Ep F1)).
      reflexivity. }
    rewrite (bind_ok _ _ w1 _ _ W1).
    set (w2 := record (EvWrite p (str Card.manual_control)) w1).
    assert (L : lift (py_int v) w2 = (Ok duty, w2))
      by (unfold lift; now rewrite Hd).
    rewrite (bind_ok _ _ w2 duty w2 L).
    assert (F2 : fs w2 !! q = Some (RegularFile duty_text duty_readable true))
      by (simpl; now rewrite K).
    rewrite (write_endpoint_writes self "pwm1" duty w2 q duty_text
               duty_readable Eq F2).
    unfold w2, record. simpl. now rewrite K, <- app_assoc.
Qed.
(** C10: without the tachometer endpoint [fan_speed] is 0 and no file is
    opened; with it, [fan_speed] is the integer that [int] reads in the text
    of the endpoint. *)
Theorem fan_speed_absent_or_read self w :
  (Card._endpoints self !! "fan1_input" = None ->
   Card.fan_speed self w = (Ok 0%Z, w)) /\
  (forall path text n w',
     Card._endpoints self !! "fan1_input" = Some path ->
     open_read path w = (Ok text, w') ->
     int_of_text text = Some n ->
     Card.fan_speed self w = (Ok n, w')).
Proof.
  unfold Card.fan_speed, try_except, Card.read_endpoint, Card.endpoint_path.
  split.
  - intros ->. reflexivity.
  - intros path text n w' -> Hread Hint.
    unfold bind, ret, lift, py_int_text. rewrite Hread, Hint. reflexivity.
Qed.

(** At 100 percent and above [set_fan_speed] writes the duty maximum it
    read, at 0 percent and below the duty minimum, after the mode switch. *)
Theorem set_fan_speed_extremes self speed w bound w1 :
  ((100 <= speed)%Z -> Card.fan_max self w = (Ok bound, w1) ->
   Card.set_fan_speed self speed w =
     (_ <- Card.set_system_controlled_fan self false ;;
      Card.write_endpoint self "pwm1" bound) w1) /\
  ((speed <= 0)%Z -> Card.fan_min self w = (Ok bound, w1) ->
   Card.set_fan_speed self speed w =
     (_ <- Card.set_system_controlled_fan self false ;;
      Card.write_endpoint self "pwm1" bound) w1).
Proof.
  unfold Card.set_fan_speed. split; intros Hs Hread.
  - assert (E : (speed >=? 100)%Z = true) by lia. rewrite E.
    rewrite (bind_ok _ _ w (PyInt bound) w1)
      by now rewrite (bind_ok _ _ w bound w1 Hread).
    unfold bind. destruct (Card.set_system_controlled_fan self false w1)
      as [[[]|e] w2]; reflexivity.
  - assert (E : (speed >=? 100)%Z = false) by lia.
    assert (E' : (speed <=? 0)%Z = true) by lia. rewrite E, E'.
    rewrite (bind_ok _ _ w (PyInt bound) w1)
      by now rewrite (bind_ok _ _ w bound w1 Hread).
    unfold bind. destruct (Card.set_system_controlled_fan self false w1)
      as [[[]|e] w2]; reflexivity.
Qed.

(** Between 0 and 100 percent [set_fan_speed] writes the integer part of the
    binary64 product [fan_max / 100 * speed], after the mode switch. *)
Theorem set_fan_speed_scaled self speed w maximum w1 f duty :
  (0 < speed < 100)%Z ->
  Card.fan_max self w = (Ok maximum, w1) ->
  Card.scale maximum speed = Ok f ->
  int_of_float f = Ok duty ->
  Card.set_fan_speed self speed w =
    (_ <- Card.set_system_controlled_fan self false ;;
     Card.write_endpoint self "pwm1" duty) w1.
Proof.
  intros Hs Hread Hscale Hint. unfold Card.set_fan_speed.
  assert (E : (speed >=? 100)%Z = false) by lia.
  assert (E' : (speed <=? 0)%Z = false) by lia. rewrite E, E'.
  rewrite (bind_ok _ _ w (PyFloat f) w1).
  - unfold bind. destruct (Card.set_system_controlled_fan self false w1)
      as [[[]|e] w2]; [|reflexivity].
    unfold lift. simpl py_int. rewrite Hint. reflexivity.
  - rewrite (bind_ok _ _ w maximum w1 Hread).
    unfold bind, lift. rewrite Hscale. reflexivity.
Qed.

End Devices.

(** ** The control loop *)

Section ControlLoop.

Context `{Builtins}.

Lemma read_not_denied (evs : list event) :
  Forall is_read evs -> Forall (fun ev => denied ev = false) evs.
Proof.
  intros Hr. induction Hr as [|ev evs Hev _ IH]; constructor; [|exact IH].
  destruct ev; simpl in *; tauto.
Qed.

Lemma fails_fast_reads {A} (c : M A) : reads_only c -> fails_fast c.
Proof.
  intros Hc w. destruct (Hc w) as (evs & J & R).
  exists evs. split; [exact J|]. left. now apply read_not_denied.
Qed.

Lemma fails_fast_bind {A B} (c : M A) (k : A -> M B) :
  fails_fast c -> (forall a, fails_fast (k a)) -> fails_fast (bind c k).
Proof.
  intros Hc Hk w. destruct (Hc w) as (evs1 & J1 & Q1).
  destruct (c w) as [[a|e] w1] eqn:E; simpl in J1, Q1.
  - rewrite (bind_ok _ _ w a w1 E).
    destruct Q1 as [Q1 | [Q1 _]]; [|discriminate].
    destruct (Hk a w1) as (evs2 & J2 & Q2).
    exists (evs1 ++ evs2). rewrite J2, J1, app_assoc. split; [reflexivity|].
    destruct Q2 as [Q2 | (Hr & before & p & d & -> & Q2)].
    + left. now apply Forall_app.
    + right. split; [exact Hr|].
      exists (evs1 ++ before), p, d. rewrite app_assoc.
      split; [reflexivity | now apply Forall_app].
  - rewrite (bind_raise _ _ w e w1 E). exists evs1. simpl.
    split; [exact J1|].
    destruct Q1 as [Q1 | (Hr & Q1)]; [now left | right].
    injection Hr as ->. auto.
Qed.

Lemma fails_fast_write_endpoint self endpoint data :
  fails_fast (Card.write_endpoint self endpoint data).
Proof.
  intros w.
  destruct (write_endpoint_cases self endpoint data w)
    as [(J & e & R & _) | [(p & _ & J & R) | (p & n & _ & J & R)]].
  - exists []. rewrite app_nil_r. split; [exact J|]. left. constructor.
  - exists [EvDenied p (str data)]. split; [exact J|]. right.
    split; [exact R|]. exists [], p, (str data). split; [reflexivity | constructor].
  - exists [EvWrite p (str data)]. split; [exact J|]. left.
    constructor; [reflexivity | constructor].
Qed.

Lemma fails_fast_set_fan_speed self speed :
  fails_fast (Card.set_fan_speed self speed).
Proof.
  apply fails_fast_bind; [apply fails_fast_reads, reads_only_choice|].
  intros v. apply fails_fast_bind.
  - apply fails_fast_bind; [apply fails_fast_write_endpoint|].
    intros _. apply fails_fast_reads, reads_only_ret.
  - intros _. apply fails_fast_bind; [apply fails_fast_reads, reads_only_lift|].
    intros duty. apply fails_fast_write_endpoint.
Qed.

Lemma fails_fast_body curve entry : fails_fast (FanController.body curve entry).
Proof.
  destruct entry as [name card]. unfold FanController.body.
  apply fails_fast_bind; [apply fails_fast_reads, reads_only_gpu_temp|].
  intros temp.
  apply fails_fast_bind; [apply fails_fast_reads, reads_only_lift|].
  intros speed.
  apply fails_fast_bind; [apply fails_fast_reads, reads_only_fan_speed|].
  intros _.
  apply fails_fast_bind; [apply fails_fast_reads, reads_only_fan_min|].
  intros _.
  apply fails_fast_bind; [apply fails_fast_reads, reads_only_fan_max|].
  intros _.
  apply fails_fast_bind; [apply fails_fast_set_fan_speed|].
  intros _. apply fails_fast_reads, reads_only_ret.
Qed.

Lemma fails_fast_for_each {A} (xs : list A) (f : A -> M unit) :
  (forall x, fails_fast (f x)) -> fails_fast (for_each xs f).
Proof.
  intros Hf. induction xs as [|x xs IH]; simpl.
  - apply fails_fast_reads, reads_only_ret.
  - apply fails_fast_bind; [apply Hf | intros _; exact IH].
Qed.

Lemma fails_fast_main self rounds : fails_fast (FanController.main self rounds).
Proof.
  induction rounds as [|rounds IH]; simpl.
  - apply fails_fast_reads, reads_only_ret.
  - apply fails_fast_bind; [|intros _; exact IH].
    apply fails_fast_for_each. intros entry. apply fails_fast_body.
Qed.

(** C6: when the system refuses a write during a run of the loop, the run
    ends with [SystemExit(1)] and the refused write is the last file access of
    the process: no other device is read or written after it, and the write
    is not attempted again. *)
Theorem refused_write_ends_process self rounds w r w' evs p d :
  FanController.main self rounds w = (r, w') ->
  journal w' = journal w ++ evs ->
  In (EvDenied p d) evs ->
  r = Raise (SystemExit 1) /\
  exists before,
    evs = before ++ [EvDenied p d] /\
    Forall (fun ev => denied ev = false) before.
Proof.
  intros Hrun J Hin.
  destruct (fails_fast_main self rounds w) as (evs' & J' & Q).
  rewrite Hrun in J', Q. simpl in J', Q.
  rewrite J in J'. apply app_inv_head in J'. subst evs'.
  destruct Q as [Q | (Hr & before & p' & d' & -> & Q)].
  - rewrite List.Forall_forall in Q. specialize (Q _ Hin). discriminate.
  - split; [exact Hr|]. exists before.
    apply in_app_or in Hin. destruct Hin as [Hin | [Hin | []]].
    + rewrite List.Forall_forall in Q. specialize (Q _ Hin). discriminate.
    + injection Hin as -> ->. auto.
Qed.




(** A scan that finds no card ends the constructor of the controller with
    [SystemExit(1)], before the curve is built and before any round. *)
Theorem empty_registry_exits cfg w w' :
  Scanner._get_cards (FanController.config_cards cfg) w = (Ok [], w') ->
  FanController.__init__ cfg w = (Raise (SystemExit 1), w').
Proof.
  intros Hscan. unfold FanController.__init__, Scanner.__init__.
  rewrite (bind_ok _ _ w (Scanner.Build []) w')
    by now rewrite (bind_ok _ _ w [] w' Hscan).
  reflexivity.
Qed.

End ControlLoop.

(** ** Runs on the example worlds *)

(** C1: the scan of a world whose first card has no duty endpoint [pwm1]
    returns both cards; the check [_verify_card], which raises
    [FileNotFoundError] on that card, is not part of the scan. *)
Theorem scan_keeps_card_without_duty_endpoint :
  Card._endpoints (card_named "card0" world_without_pwm1) !! "pwm1" = None /\
  Card._verify_card (card_named "card0" world_without_pwm1)
    = Raise FileNotFoundError /\
  exists cards,
    fst (Scanner._get_cards None world_without_pwm1) = Ok cards /\
    map fst cards = ["card0"; "card1"].
Proof.
  split; [vm_compute; reflexivity|].
  split; [vm_compute; reflexivity|].
  exists (scanned world_without_pwm1).
  split; vm_compute; reflexivity.
Qed.

(** On that registry the first round of the loop stops at the card without
    the duty endpoint: the mode switch is written and the duty write raises
    [KeyError]. *)
Lemma tick_fails_on_card_without_duty_endpoint :
  fst (FanController.tick (controller world_without_pwm1) world_without_pwm1)
    = Raise (KeyError "pwm1").
Proof. vm_compute. reflexivity. Qed.

(** A card whose [device/hwmon] directory lists no monitor makes the scan
    itself raise: [_load_endpoints] reads the unset [_monitor]. *)
Lemma scan_fails_without_monitor :
  fst (Scanner._get_cards None world_without_monitor)
    = Raise (AttributeError "_monitor").
Proof. vm_compute. reflexivity. Qed.

(** C5: with a duty maximum of 58, [set_fan_speed(50)] writes 28, where
    [58 * 50 / 100] is 29: the quotient [58 / 100] is rounded to binary64
    before it is multiplied, and the product falls below 29. *)
Theorem set_fan_speed_half_of_58 :
  fst (Card.fan_max (card_named "card0" world_max_58) world_max_58) = Ok 58%Z /\
  journal (snd (Card.set_fan_speed (card_named "card0" world_max_58) 50
                  world_max_58))
    = [ EvRead "/sys/class/drm/card0/device/hwmon/hwmon0/pwm1_max";
        EvWrite "/sys/class/drm/card0/device/hwmon/hwmon0/pwm1_enable" "1";
        EvWrite "/sys/class/drm/card0/device/hwmon/hwmon0/pwm1" "28" ] /\
  (58 * 50 / 100 = 29)%Z.
Proof.
  repeat split; vm_compute; reflexivity.
Qed.

(** The journal of two rounds on the world whose first card has a read-only
    mode switch: five reads of the first card, the refused write, and no
    access to the second card of the registry. *)
Lemma refused_write_journal :
  map fst (Scanner.cards (FanController._scanner (controller world_denied)))
    = ["card0"; "card1"] /\
  journal (snd (FanController.main (controller world_denied) 2 world_denied))
    = [ EvRead "/sys/class/drm/card0/device/hwmon/hwmon0/temp1_input";
        EvRead "/sys/class/drm/card0/device/hwmon/hwmon0/fan1_input";
        EvRead "/sys/class/drm/card0/device/hwmon/hwmon0/pwm1_min";
        EvRead "/sys/class/drm/card0/device/hwmon/hwmon0/pwm1_max";
        EvRead "/sys/class/drm/card0/device/hwmon/hwmon0/pwm1_max";
        EvDenied "/sys/class/drm/card0/device/hwmon/hwmon0/pwm1_enable" "1" ].
Proof. split; vm_compute; reflexivity. Qed.

(** Two cards, the mode switch of the first read-only: the run ends at the
    refused write, and the journal holds no access to the second card. *)
Lemma refused_write_ends_process_witness :
  fst (FanController.main (controller world_denied) 2 world_denied)
    = Raise (SystemExit 1) /\
  exists before,
    journal (snd (FanController.main (controller world_denied) 2 world_denied))
      = before
        ++ [EvDenied "/sys/class/drm/card0/device/hwmon/hwmon0/pwm1_enable" "1"]
    /\ Forall (fun ev => denied ev = false) before.
Proof.
  apply (refused_write_ends_process (controller world_denied) 2 world_denied
           (fst (FanController.main (controller world_denied) 2 world_denied))
           (snd (FanController.main (controller world_denied) 2 world_denied))).
  - apply surjective_pairing.
  - reflexivity.
  - vm_compute. tauto.
Defined.

(** A call at 50 percent on a card whose duty maximum reads 255: it returns,
    and has written 1 to the mode switch and then 127 to the duty. *)
Lemma set_fan_speed_mode_before_duty_witness :
  Card.set_fan_speed (card_named "card1" world_max_58) 50 world_max_58
  = (Ok (Z.of_nat (String.length (str 127))),
     World (fs world_max_58)
       (journal
          (record (EvRead "/sys/class/drm/card1/device/hwmon/hwmon1/pwm1_max")
             world_max_58) ++
        [EvWrite "/sys/class/drm/card1/device/hwmon/hwmon1/pwm1_enable"
           (str Card.manual_control);
         EvWrite "/sys/class/drm/card1/device/hwmon/hwmon1/pwm1" (str 127)])).
Proof.
  apply (proj2 (proj2 (set_fan_speed_mode_before_duty
                         (card_named "card1" world_max_58) 50 world_max_58))
           (PyFloat (S754_finite false 8972014882652159 (-46))) _ 127%Z _ _
           ("2" +:+ newline) true ("0" +:+ newline) true);
    vm_compute; reflexivity.
Defined.


(** On the curve of the points [(0, 4)] and [(28, 72)] and at 21 degrees the
    loop commands 54 percent: the value of the curve is just below 55. *)
Lemma loop_commands_rounded_speed :
  FanController.speed_for slope_curve (Finite 21) = Ok 54%Z.
Proof. vm_compute. reflexivity. Qed.

(** A card without the tachometer and a card whose tachometer reads 1200. *)
Lemma fan_speed_absent_or_read_witness :
  Card.fan_speed (card_named "card0" world_max_58) world_max_58
    = (Ok 0%Z, world_max_58) /\
  Card.fan_speed (card_named "card1" world_max_58) world_max_58
    = (Ok 1200%Z,
       record (EvRead "/sys/class/drm/card1/device/hwmon/hwmon1/fan1_input")
         world_max_58).
Proof.
  split.
  - apply (proj1 (fan_speed_absent_or_read
                    (card_named "card0" world_max_58) world_max_58)).
    vm_compute. reflexivity.
  - apply (proj2 (fan_speed_absent_or_read
                    (card_named "card1" world_max_58) world_max_58)
             "/sys/class/drm/card1/device/hwmon/hwmon1/fan1_input"
             ("1200" +:+ newline)).
    + vm_compute. reflexivity.
    + vm_compute. reflexivity.
    + vm_compute. reflexivity.
Defined.

(** At 100 percent on a card whose duty maximum reads 255. *)
Lemma set_fan_speed_extremes_witness :
  Card.set_fan_speed (card_named "card1" world_max_58) 100 world_max_58
  = (_ <- Card.set_system_controlled_fan (card_named "card1" world_max_58)
            false ;;
     Card.write_endpoint (card_named "card1" world_max_58) "pwm1" 255)
      (record (EvRead "/sys/class/drm/card1/device/hwmon/hwmon1/pwm1_max")
         world_max_58).
Proof.
  apply (proj1 (set_fan_speed_extremes (card_named "card1" world_max_58) 100
                  world_max_58 255 _)).
  - lia.
  - vm_compute. reflexivity.
Defined.

(** The constructor on a world with no card. *)
Lemma empty_registry_exits_witness :
  FanController.__init__ (FanController.Config None test_points) world_no_card
  = (Raise (SystemExit 1), world_no_card).
Proof.
  apply empty_registry_exits. vm_compute. reflexivity.
Defined.

(** With the duty maximum of 255 the value written at every percentage from
    1 to 99 is the integer part of [255 * percent / 100]. *)
Theorem scale_of_255_is_exact (speed : Z) :
  (0 < speed < 100)%Z ->
  exists f,
    Card.scale 255 speed = Ok f /\
    int_of_float f = Ok (255 * speed / 100)%Z.
Proof.
  intros Hs.
  assert (Hall : forallb (fun n => scale_agrees 255 (Z.of_nat n)) (seq 1 99) = true)
    by (vm_compute; reflexivity).
  rewrite forallb_forall in Hall.
  specialize (Hall (Z.to_nat speed)).
  rewrite Z2Nat.id in Hall by lia.
  assert (Hin : In (Z.to_nat speed) (seq 1 99)) by (apply in_seq; lia).
  specialize (Hall Hin). unfold scale_agrees in Hall.
  destruct (Card.scale 255 speed) as [f|]; [|discriminate].
  exists f. split; [reflexivity|].
  destruct (int_of_float f) as [duty|]; [|discriminate].
  apply Z.eqb_eq in Hall. now subst.
Qed.

(** At 50 percent: 127. *)
Lemma scale_of_255_is_exact_witness :
  exists f,
    Card.scale 255 50 = Ok f /\ int_of_float f = Ok (255 * 50 / 100)%Z.
Proof.
  apply (scale_of_255_is_exact 50). lia.
Defined.

(** At 50 percent on the card whose duty maximum reads 58: 28. *)
Lemma set_fan_speed_scaled_witness :
  Card.set_fan_speed (card_named "card0" world_max_58) 50 world_max_58
  = (_ <- Card.set_system_controlled_fan (card_named "card0" world_max_58)
            false ;;
     Card.write_endpoint (card_named "card0" world_max_58) "pwm1" 28)
      (record (EvRead "/sys/class/drm/card0/device/hwmon/hwmon0/pwm1_max")
         world_max_58).
Proof.
  apply (set_fan_speed_scaled (card_named "card0" world_max_58) 50
           world_max_58 58 _
           (S754_finite false 8162774324609023 (-48)) 28).
  - lia.
  - vm_compute. reflexivity.
  - vm_compute. reflexivity.
  - reflexivity.
Defined.

(** ** The card *)

Section CardProperties.

Lemma verify_fields_ok endpoints fields :
  Card.verify_fields endpoints fields = Ok tt <->
  forall endpoint, In endpoint fields -> is_Some (endpoints !! endpoint).
Proof.
  induction fields as [|f fields IH]; simpl.
  - split; [intros _ endpoint [] | reflexivity].
  - destruct (endpoints !! f) as [p|] eqn:E.
    + rewrite IH. split.
      * intros Hall endpoint [<- | Hin]; [rewrite E; eauto | auto].
      * intros Hall endpoint Hin. apply Hall. now right.
    + split; [discriminate|].
      intros Hall. destruct (Hall f (or_introl eq_refl)) as [p Hp].
      congruence.
Qed.

Lemma verify_fields_error endpoints fields :
  Card.verify_fields endpoints fields = Ok tt \/
  Card.verify_fields endpoints fields = Raise FileNotFoundError.
Proof.
  induction fields as [|f fields IH]; simpl; [now left|].
  destruct (endpoints !! f); [exact IH | now right].
Qed.

(** [_verify_card] returns when the card has each of the five endpoints of
    [AMD_FIELDS], and raises [FileNotFoundError] otherwise; the tachometer
    [fan1_input] is not among them. *)
Theorem verify_card_requires_five_endpoints self :
  (Card._verify_card self = Ok tt <->
   is_Some (Card._endpoints self !! "temp1_input") /\
   is_Some (Card._endpoints self !! "pwm1_max") /\
   is_Some (Card._endpoints self !! "pwm1_min") /\
   is_Some (Card._endpoints self !! "pwm1_enable") /\
   is_Some (Card._endpoints self !! "pwm1")) /\
  (Card._verify_card self = Ok tt \/
   Card._verify_card self = Raise FileNotFoundError).
Proof.
  split; [|apply verify_fields_error].
  unfold Card._verify_card. rewrite verify_fields_ok. unfold Card.AMD_FIELDS.
  split.
  - intros Hall. repeat split; apply Hall; simpl; tauto.
  - intros (H1 & H2 & H3 & H4 & H5) endpoint Hin. simpl in Hin.
    destruct Hin as [<- | [<- | [<- | [<- | [<- | []]]]]]; assumption.
Qed.

(** The dictionary [_load_endpoints] builds from a listing. *)
Lemma endpoints_of_listing dir entries : forall (acc : gmap string string) k p,
  fold_left
    (fun _endpoints endpoint =>
       if Card.bookkeeping endpoint then _endpoints
       else <[endpoint := os_path_join dir [endpoint]]> _endpoints)
    entries acc !! k = Some p <->
  (In k entries /\ Card.bookkeeping k = false /\ p = os_path_join dir [k]) \/
  (~ (In k entries /\ Card.bookkeeping k = false) /\ acc !! k = Some p).
Proof.
  induction entries as [|e entries IH]; intros acc k p; simpl.
  - split; [intros Hk; right; split; [tauto | exact Hk] | intros [[[] _] | [_ Hk]]; exact Hk].
  - rewrite IH. destruct (Card.bookkeeping e) eqn:B.
    + split.
      * intros [(Hin & Hb & Hp) | (Hn & Hk)]; [left; tauto|].
        right. split; [|exact Hk]. intros [[<- | Hin] Hb]; [congruence | tauto].
      * intros [([<- | Hin] & Hb & Hp) | (Hn & Hk)]; [congruence | left; tauto |].
        right. split; [tauto | exact Hk].
    + destruct (decide (e = k)) as [<- | Hne].
      * rewrite lookup_insert_eq. split.
        -- intros [(Hin & Hb & Hp) | (Hn & [= <-])]; left; tauto.
        -- intros [(_ & Hb & Hp) | (Hn & _)]; [|tauto].
           destruct (in_dec String.string_dec e entries) as [Hin | Hnin]; [left; tauto|].
           right. split; [tauto | congruence].
      * rewrite lookup_insert_ne by exact Hne. split.
        -- intros [(Hin & Hb & Hp) | (Hn & Hk)]; [left; tauto|].
           right. split; [|exact Hk]. intros [[-> | Hin] Hb]; tauto.
        -- intros [([-> | Hin] & Hb & Hp) | (Hn & Hk)]; [tauto | left; tauto |].
           right. split; [tauto | exact Hk].
Qed.

Lemma find_monitor_fold nodes : forall acc m,
  fold_left
    (fun monitor node =>
       if re_match_word_digit Card.HWMON_REGEX node then Some node else monitor)
    nodes acc = Some m <->
  (exists before after,
     nodes = before ++ m :: after /\
     re_match_word_digit Card.HWMON_REGEX m = true /\
     Forall (fun node => re_match_word_digit Card.HWMON_REGEX node = false) after) \/
  (Forall (fun node => re_match_word_digit Card.HWMON_REGEX node = false) nodes /\
   acc = Some m).
Proof.
  induction nodes as [|n nodes IH]; intros acc m; simpl.
  - split.
    + intros ->. right. split; [constructor | reflexivity].
    + intros [(before & after & Hn & _) | [_ ->]]; [|reflexivity].
      destruct before; discriminate.
  - rewrite IH. destruct (re_match_word_digit Card.HWMON_REGEX n) eqn:E.
    + split.
      * intros [(before & after & -> & Hm & Ha) | (Hall & [= <-])].
        -- left. exists (n :: before), after. auto.
        -- left. exists [], nodes. auto.
      * intros [(before & after & Hn & Hm & Ha) | (Hall & _)].
        -- destruct before as [|b before]; simpl in Hn; injection Hn as -> ->.
           ++ right. auto.
           ++ left. exists before, after. auto.
        -- inversion Hall; congruence.
    + split.
      * intros [(before & after & -> & Hm & Ha) | (Hall & ->)].
        -- left. exists (n :: before), after. auto.
        -- right. split; [constructor; assumption | reflexivity].
      * intros [(before & after & Hn & Hm & Ha) | (Hall & ->)].
        -- destruct before as [|b before]; simpl in Hn; injection Hn as -> ->.
           ++ congruence.
           ++ left. exists before, after. auto.
        -- right. inversion Hall; auto.
Qed.

Lemma find_monitor_fold_none nodes : forall acc,
  fold_left
    (fun monitor node =>
       if re_match_word_digit Card.HWMON_REGEX node then Some node else monitor)
    nodes acc = None <->
  Forall (fun node => re_match_word_digit Card.HWMON_REGEX node = false) nodes
  /\ acc = None.
Proof.
  induction nodes as [|n nodes IH]; intros acc; simpl.
  - split; [intros ->; split; [constructor | reflexivity] | intros [_ ->]; reflexivity].
  - rewrite IH. destruct (re_match_word_digit Card.HWMON_REGEX n) eqn:E.
    + split; [intros [_ [=]] | intros [Hall _]; inversion Hall; congruence].
    + split.
      * intros [Hall ->]. split; [constructor; assumption | reflexivity].
      * intros [Hall ->]. inversion Hall; auto.
Qed.

Lemma find_monitor_none nodes :
  Card.find_monitor nodes = None <->
  Forall (fun node => re_match_word_digit Card.HWMON_REGEX node = false) nodes.
Proof.
  unfold Card.find_monitor. rewrite find_monitor_fold_none. tauto.
Qed.

(** On a tree whose directories list ASCII names: the constructor of a card
    changes no file and opens none.  The monitor of the card it returns is
    the last entry of [device/hwmon] that matches [hwmon] and a digit.  Without that directory it raises
    [FileNotFoundError]; with no matching entry it raises [AttributeError],
    since [_monitor] was never set. *)
Theorem init_picks_last_monitor card_id w :
  ascii_names w = true ->
  let hwmon := os_path_join ROOT_DIR [card_id; HWMON_DIR] in
  (forall card w', Card.__init__ card_id w = (Ok card, w') ->
     w' = w /\ Card._id card = card_id /\
     exists before after,
       fs w !! hwmon = Some (Directory (before ++ Card._monitor card :: after)) /\
       re_match_word_digit Card.HWMON_REGEX (Card._monitor card) = true /\
       Forall (fun node => re_match_word_digit Card.HWMON_REGEX node = false)
         after) /\
  (fs w !! hwmon = None ->
   Card.__init__ card_id w = (Raise FileNotFoundError, w)) /\
  (forall nodes,
     fs w !! hwmon = Some (Directory nodes) ->
     Forall (fun node => re_match_word_digit Card.HWMON_REGEX node = false) nodes ->
     Card.__init__ card_id w = (Raise (AttributeError "_monitor"), w)).
Proof.
  intros _ hwmon. unfold Card.__init__, bind, os_listdir. fold hwmon.
  split; [|split].
  - intros card w'.
    destruct (fs w !! hwmon) as [[content r wr | nodes]|]; try discriminate.
    destruct (Card.find_monitor nodes) as [mon|] eqn:Hmon;
      [|simpl; discriminate].
    unfold Card._load_endpoints, bind, os_listdir.
    destruct (fs w !! _) as [[content r wr | entries]|]; try discriminate.
    unfold ret. intros [= <- <-]. simpl.
    split; [reflexivity|]. split; [reflexivity|].
    unfold Card.find_monitor in Hmon. apply find_monitor_fold in Hmon.
    destruct Hmon as [(before & after & -> & Hm & Ha) | [_ [=]]].
    exists before, after. auto.
  - intros ->. reflexivity.
  - intros nodes -> Hall. apply find_monitor_none in Hall. rewrite Hall.
    reflexivity.
Qed.

(** The endpoints of a card the constructor returned are the entries of its
    monitor directory apart from [device], [power], [subsystem] and [uevent],
    each mapped to its path in that directory. *)
Theorem init_maps_listed_files card_id w card w' :
  Card.__init__ card_id w = (Ok card, w') ->
  let dir :=
    os_path_join ROOT_DIR [card_id; HWMON_DIR; Card._monitor card] in
  exists entries,
    fs w !! dir = Some (Directory entries) /\
    forall k p,
      Card._endpoints card !! k = Some p <->
      In k entries /\ Card.bookkeeping k = false /\ p = os_path_join dir [k].
Proof.
  unfold Card.__init__, bind, os_listdir.
  destruct (fs w !! _) as [[content r wr | nodes]|]; try discriminate.
  destruct (Card.find_monitor nodes) as [mon|]; [|simpl; discriminate].
  unfold Card._load_endpoints, bind, os_listdir.
  destruct (fs w !! os_path_join ROOT_DIR [card_id; HWMON_DIR; mon])
    as [[content r wr | entries]|] eqn:Hdir; try discriminate.
  unfold ret. intros [= <- <-]. cbn [Card._monitor Card._endpoints default].
  cbv zeta. exists entries.
  split; [exact Hdir|]. intros k p.
  pose proof (endpoints_of_listing
                (os_path_join ROOT_DIR [card_id; HWMON_DIR; mon]) entries ∅ k p)
    as Hl.
  rewrite lookup_empty in Hl. etransitivity; [exact Hl|]. split.
  - intros [Hin | [_ [=]]]. exact Hin.
  - intros Hin. now left.
Qed.
End CardProperties.

(** ** The scanner *)

Section ScannerProperties.

Lemma touches_nothing_lift {A} (r : result A) : touches_nothing (lift r).
Proof. intros w. reflexivity. Qed.

Lemma touches_nothing_bind {A B} (c : M A) (k : A -> M B) :
  touches_nothing c -> (forall a, touches_nothing (k a)) ->
  touches_nothing (bind c k).
Proof.
  intros Hc Hk w. unfold bind. specialize (Hc w).
  destruct (c w) as [[a|e] w1]; simpl in Hc; subst w1; [apply Hk | reflexivity].
Qed.

Lemma touches_nothing_try_except {A} (body handler : M A) catches :
  touches_nothing body -> touches_nothing handler ->
  touches_nothing (try_except body catches handler).
Proof.
  intros Hb Hh w. unfold try_except. specialize (Hb w).
  destruct (body w) as [[a|e] w1]; simpl in Hb; subst w1; [reflexivity|].
  destruct (catches e); [apply Hh | reflexivity].
Qed.

Lemma touches_nothing_listdir path : touches_nothing (os_listdir path).
Proof.
  intros w. unfold os_listdir.
  destruct (fs w !! path) as [[]|]; reflexivity.
Qed.

Lemma touches_nothing_init card_id : touches_nothing (Card.__init__ card_id).
Proof.
  apply touches_nothing_bind; [apply touches_nothing_listdir|].
  intros nodes. apply touches_nothing_bind; [|intros; apply (touches_nothing_lift (Ok _))].
  unfold Card._load_endpoints. destruct (Card.find_monitor nodes).
  - apply touches_nothing_bind; [apply touches_nothing_listdir|].
    intros. apply (touches_nothing_lift (Ok _)).
  - apply (touches_nothing_lift (Raise _)).
Qed.

Lemma touches_nothing_scan_nodes allow nodes : forall cards,
  touches_nothing (Scanner.scan_nodes allow nodes cards).
Proof.
  induction nodes as [|node nodes IH]; intros cards; simpl.
  - apply (touches_nothing_lift (Ok _)).
  - destruct (re_match_word_digit Scanner.CARD_REGEX node); [|apply IH].
    destruct (Scanner.filtered_out allow node); [apply IH|].
    apply touches_nothing_bind; [|intros; apply IH].
    apply touches_nothing_try_except; [|apply (touches_nothing_lift (Ok _))].
    apply touches_nothing_bind; [apply touches_nothing_init|].
    intros. apply (touches_nothing_lift (Ok _)).
Qed.

Lemma touches_nothing_get_cards allow :
  touches_nothing (Scanner._get_cards allow).
Proof.
  apply touches_nothing_bind; [apply touches_nothing_listdir|].
  intros. apply touches_nothing_scan_nodes.
Qed.

(** The scan and the constructor of the controller leave the world as it was:
    they list directories and open no file, whatever they return. *)
Theorem construction_opens_no_file cfg w :
  snd (Scanner.__init__ (FanController.config_cards cfg) w) = w /\
  snd (FanController.__init__ cfg w) = w.
Proof.
  assert (Hs : touches_nothing (Scanner.__init__ (FanController.config_cards cfg))).
  { apply touches_nothing_bind; [apply touches_nothing_get_cards|].
    intros. apply (touches_nothing_lift (Ok _)). }
  split; [apply Hs|].
  apply touches_nothing_bind; [exact Hs|]. intros scanner.
  destruct (length (Scanner.cards scanner) <? 1)%nat.
  - apply (touches_nothing_lift (Raise _)).
  - apply touches_nothing_bind; [apply touches_nothing_lift|].
    intros. apply (touches_nothing_lift (Ok _)).
Qed.

(** *** The dictionary of cards *)

Lemma dict_get_set {V} (d : list (string * V)) k v k' :
  dict_get (Scanner.dict_set d k v) k' =
    if String.eqb k k' then Some v else dict_get d k'.
Proof.
  induction d as [|[k0 v0] d IH]; simpl.
  - destruct (String.eqb k k'); reflexivity.
  - destruct (String.eqb_spec k0 k) as [-> | Hne]; simpl.
    + destruct (String.eqb k k'); reflexivity.
    + rewrite IH. destruct (String.eqb_spec k0 k') as [-> | Hne'].
      * destruct (String.eqb_spec k k'); [congruence | reflexivity].
      * reflexivity.
Qed.

Lemma dict_set_keys {V} (d : list (string * V)) k v :
  map fst (Scanner.dict_set d k v) =
    if in_dec String.string_dec k (map fst d) then map fst d
    else map fst d ++ [k].
Proof.
  induction d as [|[k0 v0] d IH]; simpl; [reflexivity|].
  destruct (String.eqb_spec k0 k) as [-> | Hne]; simpl.
  - destruct (String.string_dec k k); [reflexivity | congruence].
  - rewrite IH. destruct (String.string_dec k0 k); [congruence|].
    destruct (in_dec String.string_dec k (map fst d)); reflexivity.
Qed.

Lemma dict_set_nodup {V} (d : list (string * V)) k v :
  List.NoDup (map fst d) -> List.NoDup (map fst (Scanner.dict_set d k v)).
Proof.
  intros Hd. rewrite dict_set_keys.
  destruct (in_dec String.string_dec k (map fst d)) as [Hin | Hnin]; [exact Hd|].
  apply List.NoDup_app; [exact Hd | |].
  - constructor; [intros [] | constructor].
  - intros x Hx [<- | []]. contradiction.
Qed.

(** The registry after the loop of [_get_cards] over [nodes], started with
    the dictionary [acc]. *)
Lemma scan_nodes_lookup allow w nodes : forall acc cards w',
  Scanner.scan_nodes allow nodes acc w = (Ok cards, w') ->
  forall name card,
    dict_get cards name = Some card <->
    (In name nodes /\
     re_match_word_digit Scanner.CARD_REGEX name = true /\
     Scanner.filtered_out allow name = false /\
     Card.__init__ name w = (Ok card, w)) \/
    (~ (In name nodes /\
        re_match_word_digit Scanner.CARD_REGEX name = true /\
        Scanner.filtered_out allow name = false /\
        exists c, Card.__init__ name w = (Ok c, w)) /\
     dict_get acc name = Some card).
Proof.
  induction nodes as [|node nodes IH]; intros acc cards w' Hscan name card.
  - simpl in Hscan. injection Hscan as <- <-. simpl. tauto.
  - simpl in Hscan.
    destruct (re_match_word_digit Scanner.CARD_REGEX node) eqn:Hm.
    + destruct (Scanner.filtered_out allow node) eqn:Hf.
      * rewrite (IH _ _ _ Hscan). simpl.
        split; intros [(Hin & H1 & H2 & H3) | (Hn & Hacc)].
        -- left. tauto.
        -- right. split; [|exact Hacc].
           intros ([<- | Hin] & H1 & H2 & H3); [congruence | tauto].
        -- destruct Hin as [<- | Hin]; [congruence | left; tauto].
        -- right. split; [tauto | exact Hacc].
      * unfold bind, try_except in Hscan.
        pose proof (touches_nothing_init node w) as Hw.
        destruct (Card.__init__ node w) as [[c|e] w1] eqn:Hinit;
          simpl in Hw; subst w1; simpl in Hscan.
        -- rewrite (IH _ _ _ Hscan). rewrite dict_get_set. simpl.
           destruct (String.eqb_spec node name) as [<- | Hne].
           ++ rewrite Hinit. split.
              ** intros [(_ & _ & _ & [= <-]) | (_ & [= <-])]; left; tauto.
              ** intros [(_ & _ & _ & [= <-]) | (Hn & _)].
                 --- destruct (in_dec String.string_dec node nodes) as [Hin | Hnin];
                       [left; tauto | right].
                     split; [tauto | reflexivity].
                 --- exfalso. apply Hn. repeat split; eauto.
           ++ split; intros [(Hin & H1 & H2 & H3) | (Hn & Hacc)].
              ** left. tauto.
              ** right. split; [|exact Hacc].
                 intros ([-> | Hin] & H1 & H2 & H3); tauto.
              ** destruct Hin as [-> | Hin]; [tauto | left; tauto].
              ** right. split; [tauto | exact Hacc].
        -- destruct (Scanner.is_FileNotFoundError e); [|discriminate].
           simpl in Hscan. rewrite (IH _ _ _ Hscan). simpl.
           split; intros [(Hin & H1 & H2 & H3) | (Hn & Hacc)].
           ++ left. tauto.
           ++ right. split; [|exact Hacc].
              intros ([<- | Hin] & H1 & H2 & c & H3); [congruence | eauto 6].
           ++ destruct Hin as [<- | Hin]; [congruence | left; tauto].
           ++ right. split; [tauto | exact Hacc].
    + rewrite (IH _ _ _ Hscan). simpl.
      split; intros [(Hin & H1 & H2 & H3) | (Hn & Hacc)].
      * left. tauto.
      * right. split; [|exact Hacc].
        intros ([<- | Hin] & H1 & H2 & H3); [congruence | tauto].
      * destruct Hin as [<- | Hin]; [congruence | left; tauto].
      * right. split; [tauto | exact Hacc].
Qed.

Lemma scan_nodes_nodup allow nodes : forall acc cards w w',
  Scanner.scan_nodes allow nodes acc w = (Ok cards, w') ->
  List.NoDup (map fst acc) -> List.NoDup (map fst cards).
Proof.
  induction nodes as [|node nodes IH]; intros acc cards w w' Hscan Hacc.
  - simpl in Hscan. now injection Hscan as <- <-.
  - simpl in Hscan.
    destruct (re_match_word_digit Scanner.CARD_REGEX node); [|eauto].
    destruct (Scanner.filtered_out allow node); [eauto|].
    unfold bind, try_except in Hscan.
    destruct (Card.__init__ node w) as [[c|e] w1]; simpl in Hscan.
    + apply (IH _ _ _ _ Hscan). now apply dict_set_nodup.
    + destruct (Scanner.is_FileNotFoundError e); [|discriminate].
      simpl in Hscan. eauto.
Qed.

(** On a tree whose directories list ASCII names: the registry a scan
    returns has each name once, and holds a card under a name exactly when the name is listed in [ROOT_DIR], matches [card] and a
    digit, is not filtered out by the allow-list, and the constructor of the
    card returns that card. *)
Theorem registry_holds_the_usable_cards allow w cards w' :
  ascii_names w = true ->
  Scanner._get_cards allow w = (Ok cards, w') ->
  List.NoDup (map fst cards) /\
  exists listing,
    fs w !! ROOT_DIR = Some (Directory listing) /\
    forall name card,
      dict_get cards name = Some card <->
      In name listing /\
      re_match_word_digit Scanner.CARD_REGEX name = true /\
      Scanner.filtered_out allow name = false /\
      Card.__init__ name w = (Ok card, w).
Proof.
  intros _. unfold Scanner._get_cards, bind, os_listdir.
  destruct (fs w !! ROOT_DIR) as [[content r wr | listing]|]; try discriminate.
  intros Hscan. split.
  - apply (scan_nodes_nodup _ _ _ _ _ _ Hscan). constructor.
  - exists listing. split; [reflexivity|]. intros name card.
    rewrite (scan_nodes_lookup _ _ _ _ _ _ Hscan). simpl.
    split; [intros [Hin | [_ [=]]]; exact Hin | intros Hin; now left].
Qed.

(** *** The allow-list *)

Lemma scan_nodes_same_filter a b nodes :
  (forall node, Scanner.filtered_out a node = Scanner.filtered_out b node) ->
  forall cards w,
    Scanner.scan_nodes a nodes cards w = Scanner.scan_nodes b nodes cards w.
Proof.
  intros Hab. induction nodes as [|node nodes IH]; intros cards w; simpl;
    [reflexivity|].
  rewrite (Hab node).
  destruct (re_match_word_digit Scanner.CARD_REGEX node); [|apply IH].
  destruct (Scanner.filtered_out b node); [apply IH|].
  unfold bind. destruct (try_except _ _ _ w) as [[cards'|e] w1];
    [apply IH | reflexivity].
Qed.

(** Two allow-lists that agree up to the case of their letters give the same
    scan. *)
Theorem allow_list_ignores_case a b w :
  map lower a = map lower b ->
  Scanner._get_cards (Some a) w = Scanner._get_cards (Some b) w.
Proof.
  intros Hab. unfold Scanner._get_cards, bind.
  destruct (os_listdir ROOT_DIR w) as [[nodes|e] w1]; [|reflexivity].
  apply scan_nodes_same_filter. intros node. unfold Scanner.filtered_out.
  destruct a as [|x a], b as [|y b]; try discriminate; [reflexivity|].
  now rewrite Hab.
Qed.

(** An empty allow-list filters nothing: the scan is that of no allow-list. *)
Theorem empty_allow_list_allows_all w :
  Scanner._get_cards (Some []) w = Scanner._get_cards None w.
Proof.
  unfold Scanner._get_cards, bind.
  destruct (os_listdir ROOT_DIR w) as [[nodes|e] w1]; [|reflexivity].
  now apply scan_nodes_same_filter.
Qed.

(** *** What a scan can raise *)

Lemma init_raises card_id w e :
  fst (Card.__init__ card_id w) = Raise e ->
  e = FileNotFoundError \/ e = NotADirectoryError \/
  e = AttributeError "_monitor".
Proof.
  unfold Card.__init__, bind, os_listdir.
  destruct (fs w !! _) as [[content r wr | nodes]|]; simpl;
    [intros [= <-]; tauto | | intros [= <-]; tauto].
  destruct (Card.find_monitor nodes) as [mon|]; simpl;
    [|intros [= <-]; tauto].
  unfold bind, os_listdir.
  destruct (fs w !! _) as [[content r wr | entries]|]; simpl;
    [intros [= <-]; tauto | discriminate | intros [= <-]; tauto].
Qed.

Lemma scan_nodes_raises allow nodes : forall cards w e,
  fst (Scanner.scan_nodes allow nodes cards w) = Raise e ->
  e = NotADirectoryError \/ e = AttributeError "_monitor".
Proof.
  induction nodes as [|node nodes IH]; intros cards w e; simpl;
    [discriminate|].
  destruct (re_match_word_digit Scanner.CARD_REGEX node); [|apply IH].
  destruct (Scanner.filtered_out allow node); [apply IH|].
  unfold bind, try_except.
  pose proof (init_raises node w) as Hinit.
  destruct (Card.__init__ node w) as [[c|e'] w1]; simpl in Hinit |- *.
  - apply IH.
  - destruct (Hinit e' eq_refl) as [-> | [-> | ->]]; simpl.
    + apply IH.
    + intros [= <-]. tauto.
    + intros [= <-]. tauto.
Qed.

(** A scan raises in three ways only: [FileNotFoundError] when [ROOT_DIR] is
    missing, [NotADirectoryError], or [AttributeError] for a card whose
    [device/hwmon] lists no monitor.  The [FileNotFoundError] of a card is
    caught. *)
Theorem scan_failures allow w e :
  fst (Scanner._get_cards allow w) = Raise e ->
  (e = FileNotFoundError /\ fs w !! ROOT_DIR = None) \/
  e = NotADirectoryError \/ e = AttributeError "_monitor".
Proof.
  unfold Scanner._get_cards, bind, os_listdir.
  destruct (fs w !! ROOT_DIR) as [[content r wr | listing]|]; simpl.
  - intros [= <-]. tauto.
  - intros He. right. eapply scan_nodes_raises, He.
  - intros [= <-]. tauto.
Qed.
End ScannerProperties.

(** ** More on the curve *)

Section MoreCurve.
Local Open Scope Q_scope.

(** At the temperature of a control point [get_speed] returns the speed of
    that point. *)
Theorem get_speed_at_control_point points c (i : nat) t s temp :
  Curve.__init__ points = Ok c ->
  Curve.temps c !! i = Some t -> Curve.speeds c !! i = Some s ->
  temp == t ->
  Curve.get_speed c temp = Ok (Finite s).
Proof.
  intros Hinit Ht Hs He. apply init_valid in Hinit.
  now apply (get_speed_on_point c i t s).
Qed.

(** A curve of one point with a speed above 3 and at most 100 is accepted,
    and returns that speed at every temperature. *)
Theorem single_point_curve_is_constant (t s temp : Q) :
  3 < s -> s <= 100 ->
  exists c,
    Curve.__init__ [[t; s]] = Ok c /\ Curve.get_speed c temp = Ok (Finite s).
Proof.
  intros H3 H100. exists (Curve.Build [[t; s]] [t] [s]). split.
  - unfold Curve.__init__. cbn [np_array forallb column rbind Nat.ltb Nat.leb length map nth np_min np_max fold_left np_diff np_any existsb].
    assert (E0 : Qltb s 0 = false) by (apply Qltb_ge; lra).
    assert (E1 : Qltb 100 s = false) by (apply Qltb_ge; lra).
    assert (E2 : Qle_bool s 3 = false) by (apply Qle_bool_gt; lra).
    now rewrite E0, E1, E2.
  - unfold Curve.get_speed, np_interp. simpl.
    destruct (Qltb t temp); [reflexivity|].
    destruct (Qltb temp t); reflexivity.
Qed.

(** The constructor raises [IndexError] on an empty list of points and on
    rows of fewer than two columns. *)
Theorem points_without_two_columns :
  Curve.__init__ [] = Raise IndexError /\
  forall row rest,
    (length row < 2)%nat ->
    Forall (fun r => length r = length row) rest ->
    Curve.__init__ (row :: rest) = Raise IndexError.
Proof.
  split; [reflexivity|]. intros row rest Hrow Hrest.
  unfold Curve.__init__, np_array.
  assert (E : forallb (fun r => (length r =? length row)%nat) rest = true).
  { apply forallb_forall. rewrite List.Forall_forall in Hrest.
    intros r Hr. apply Nat.eqb_eq. auto. }
  rewrite E. cbn [rbind]. unfold column.
  destruct row as [|a [|b row]]; simpl in Hrow; try lia; reflexivity.
Qed.

End MoreCurve.

(** ** What the loop writes *)

Section LoopProperties.
Context `{Builtins}.

Lemma emits_reads {A} (P : event -> Prop) (c : M A) :
  (forall p, P (EvRead p)) -> reads_only c -> emits P c.
Proof.
  intros HP Hc w. destruct (Hc w) as (evs & J & R). exists evs.
  split; [exact J|]. clear J.
  induction R as [|ev evs Hev _ IH]; constructor; [|exact IH].
  destruct ev; simpl in Hev; [apply HP | contradiction | contradiction].
Qed.

Lemma emits_bind {A B} (P : event -> Prop) (c : M A) (k : A -> M B) :
  emits P c -> (forall a, emits P (k a)) -> emits P (bind c k).
Proof.
  intros Hc Hk w. destruct (Hc w) as (evs1 & J1 & R1).
  unfold bind. destruct (c w) as [[a|e] w1]; simpl in J1.
  - destruct (Hk a w1) as (evs2 & J2 & R2).
    exists (evs1 ++ evs2). rewrite J2, J1, app_assoc.
    split; [reflexivity | now apply Forall_app].
  - exists evs1. simpl. auto.
Qed.

Lemma emits_weaken {A} (P Q : event -> Prop) (c : M A) :
  (forall ev, P ev -> Q ev) -> emits P c -> emits Q c.
Proof.
  intros HPQ Hc w. destruct (Hc w) as (evs & J & R). exists evs.
  split; [exact J|]. clear J.
  induction R; constructor; auto.
Qed.

Lemma mode_then_duty_manual card writes :
  mode_then_duty (Card._endpoints card !! "pwm1_enable")
    (Card._endpoints card !! "pwm1") writes ->
  Forall (manual_event card) writes.
Proof.
  intros Hw. destruct Hw as [| p Hp | p Hp | p q d Hp Hq | p q d Hp Hq];
    repeat (apply Forall_cons; split); try apply Forall_nil;
    simpl; eauto.
Qed.

Lemma emits_set_fan_speed card speed :
  emits (manual_event card) (Card.set_fan_speed card speed).
Proof.
  intros w. unfold Card.set_fan_speed.
  destruct (reads_only_choice card speed w) as (reads & J & R).
  match type of J with context [snd (?c w)] => set (choice := c) in * end.
  destruct (choice w) as [[v|e] w0] eqn:E; simpl in J.
  - rewrite (bind_ok _ _ w v w0 E).
    destruct (writes_after_choice card v w0) as (writes & J2 & Hw & _).
    exists (reads ++ writes). rewrite J2, J, <- app_assoc.
    split; [reflexivity|]. apply Forall_app. split.
    + clear -R. induction R as [|ev evs Hev _ IH]; constructor; [|exact IH].
      destruct ev; simpl in Hev; [exact I | contradiction | contradiction].
    + now apply mode_then_duty_manual.
  - rewrite (bind_raise _ _ w e w0 E). exists reads. split; [exact J|].
    clear -R. induction R as [|ev evs Hev _ IH]; constructor; [|exact IH].
    destruct ev; simpl in Hev; [exact I | contradiction | contradiction].
Qed.

Lemma emits_body curve name card :
  emits (manual_event card) (FanController.body curve (name, card)).
Proof.
  assert (HP : forall p, manual_event card (EvRead p)) by (intros; exact I).
  unfold FanController.body.
  apply emits_bind; [apply emits_reads, reads_only_gpu_temp; exact HP|].
  intros temp.
  apply emits_bind; [apply emits_reads, reads_only_lift; exact HP|].
  intros speed.
  apply emits_bind; [apply emits_reads, reads_only_fan_speed; exact HP|].
  intros _.
  apply emits_bind; [apply emits_reads, reads_only_fan_min; exact HP|].
  intros _.
  apply emits_bind; [apply emits_reads, reads_only_fan_max; exact HP|].
  intros _.
  apply emits_bind; [apply emits_set_fan_speed|].
  intros _. apply emits_reads, reads_only_ret; exact HP.
Qed.

Lemma emits_for_each {A} (P : event -> Prop) (xs : list A) (f : A -> M unit) :
  (forall p, P (EvRead p)) ->
  (forall x, In x xs -> emits P (f x)) -> emits P (for_each xs f).
Proof.
  intros HP. induction xs as [|x xs IH]; intros Hf; simpl.
  - apply emits_reads, reads_only_ret; exact HP.
  - apply emits_bind; [apply Hf; now left|].
    intros _. apply IH. intros y Hy. apply Hf. now right.
Qed.

(** Whatever the number of rounds and however the loop ends, each write it
    makes or is refused is the manual value on the mode switch of a card of
    the registry, or a number on the duty endpoint of such a card: it never
    hands the fan back to the system and writes no other file. *)
Theorem loop_writes_manual_mode_and_duty_only self rounds w :
  exists evs,
    journal (snd (FanController.main self rounds w)) = journal w ++ evs /\
    Forall (loop_event (Scanner.cards (FanController._scanner self))) evs.
Proof.
  revert w. change (emits (loop_event (Scanner.cards (FanController._scanner self)))
                      (FanController.main self rounds)).
  assert (HP : forall p,
            loop_event (Scanner.cards (FanController._scanner self)) (EvRead p))
    by (intros; exact I).
  induction rounds as [|rounds IH]; simpl.
  - apply emits_reads, reads_only_ret; exact HP.
  - apply emits_bind; [|intros _; exact IH].
    apply emits_for_each; [exact HP|].
    intros [name card] Hin.
    apply (emits_weaken (manual_event card)); [|apply emits_body].
    intros [p | p d | p d] Hev; simpl; eauto.
Qed.

(** *** A round that returns *)

Lemma returns_after_reads {A B} card (c : M A) (k : A -> M B) :
  reads_only c -> (forall a, returns_after_writes card (k a)) ->
  returns_after_writes card (bind c k).
Proof.
  intros Hc Hk w b w' Hrun. destruct (Hc w) as (evs1 & J1 & R1).
  unfold bind in Hrun. destruct (c w) as [[a|e] w1]; [|discriminate].
  simpl in J1. destruct (Hk a w1 b w' Hrun) as (reads & chunk & J2 & R2 & Hc2).
  exists (evs1 ++ reads), chunk. rewrite J2, J1, <- !app_assoc.
  split; [reflexivity|]. split; [now apply Forall_app | exact Hc2].
Qed.

Lemma returns_then_ret {A B} card (c : M A) (b : B) :
  returns_after_writes card c ->
  returns_after_writes card (bind c (fun _ => ret b)).
Proof.
  intros Hc w b' w' Hrun. unfold bind, ret in Hrun.
  destruct (c w) as [[a|e] w1] eqn:E; [|discriminate].
  injection Hrun as <- <-. apply (Hc w a w1 E).
Qed.

Lemma returns_set_fan_speed card speed :
  returns_after_writes card (Card.set_fan_speed card speed).
Proof.
  intros w n w' Hrun. unfold Card.set_fan_speed in Hrun.
  destruct (reads_only_choice card speed w) as (reads & J & R).
  match type of J with context [snd (?c w)] => set (choice := c) in * end.
  destruct (choice w) as [[v|e] w0] eqn:E; simpl in J.
  - rewrite (bind_ok _ _ w v w0 E) in Hrun.
    destruct (writes_after_choice card v w0) as (writes & J2 & Hw & Hok).
    rewrite Hrun in J2, Hok. simpl in J2, Hok.
    destruct (Hok n eq_refl) as (p & q & d & ->).
    exists reads, [EvWrite p (str Card.manual_control); EvWrite q (str d)].
    rewrite J2, J, <- app_assoc. split; [reflexivity|]. split; [exact R|].
    exists p, q, d. inversion Hw; subst; auto.
  - rewrite (bind_raise _ _ w e w0 E) in Hrun. discriminate.
Qed.

Lemma returns_body curve name card :
  returns_after_writes card (FanController.body curve (name, card)).
Proof.
  unfold FanController.body.
  apply returns_after_reads; [apply reads_only_gpu_temp|]. intros temp.
  apply returns_after_reads; [apply reads_only_lift|]. intros speed.
  apply returns_after_reads; [apply reads_only_fan_speed|]. intros _.
  apply returns_after_reads; [apply reads_only_fan_min|]. intros _.
  apply returns_after_reads; [apply reads_only_fan_max|]. intros _.
  apply returns_then_ret, returns_set_fan_speed.
Qed.

Lemma writes_of_app evs1 evs2 :
  writes_of (evs1 ++ evs2) = writes_of evs1 ++ writes_of evs2.
Proof. apply List.filter_app. Qed.

Lemma writes_of_reads reads : Forall is_read reads -> writes_of reads = [].
Proof.
  induction 1 as [|ev evs Hev _ IH]; [reflexivity|].
  destruct ev; simpl in Hev; try contradiction. exact IH.
Qed.

Lemma writes_of_chunk card chunk :
  mode_and_duty card chunk -> writes_of chunk = chunk.
Proof. intros (p & q & d & _ & _ & ->). reflexivity. Qed.

(** A round that returns has written, for each card of the registry in its
    order, the manual value to the card's mode switch and then a number to
    its duty endpoint, and nothing else. *)
Theorem round_writes_every_card_in_order self w w' :
  FanController.tick self w = (Ok tt, w') ->
  exists evs chunks,
    journal w' = journal w ++ evs /\
    Forall2 (fun entry chunk => mode_and_duty (snd entry) chunk)
      (Scanner.cards (FanController._scanner self)) chunks /\
    writes_of evs = concat chunks.
Proof.
  unfold FanController.tick.
  generalize (Scanner.cards (FanController._scanner self)) as cards.
  intros cards. revert w.
  induction cards as [|[name card] cards IH]; intros w Hrun;
    cbn [for_each] in Hrun.
  - unfold ret in Hrun. injection Hrun as <-. exists [], [].
    rewrite app_nil_r.
    split; [reflexivity|]. split; [constructor | reflexivity].
  - unfold bind in Hrun.
    destruct (FanController.body (FanController.curve self) (name, card) w)
      as [[[]|e] w1] eqn:Hbody; [|discriminate].
    destruct (returns_body _ name card w tt w1 Hbody)
      as (reads & chunk & J1 & R & Hchunk).
    destruct (IH w1 Hrun) as (evs & chunks & J2 & Hall & Hw).
    exists ((reads ++ chunk) ++ evs), (chunk :: chunks).
    rewrite J2, J1, <- !app_assoc. split; [reflexivity|].
    split; [constructor; [exact Hchunk | exact Hall]|].
    rewrite !writes_of_app, (writes_of_reads _ R), (writes_of_chunk _ _ Hchunk), Hw.
    reflexivity.
Qed.
End LoopProperties.

(** ** The interactive monitor *)

Section MonitorProperties.
Context `{Builtins}.

Lemma reads_only_touches_nothing {A} (c : M A) :
  touches_nothing c -> reads_only c.
Proof.
  intros Hc w. exists []. rewrite (Hc w), app_nil_r. split; [reflexivity | constructor].
Qed.

Lemma reads_only_show_table cards : reads_only (show_table cards).
Proof.
  induction cards as [|[name card] cards IH]; simpl.
  - apply reads_only_ret.
  - apply reads_only_bind; [apply reads_only_fan_speed|]. intros fan_speed.
    apply reads_only_bind; [apply reads_only_gpu_temp|]. intros gpu_temp.
    apply reads_only_bind; [exact IH|]. intros rows. apply reads_only_ret.
Qed.

Lemma reads_only_refresh n cards : reads_only (refresh n cards).
Proof.
  induction n as [|n IH]; simpl; [apply reads_only_ret|].
  apply reads_only_bind; [apply reads_only_show_table | intros _; exact IH].
Qed.

Lemma reads_only_scanner : reads_only (Scanner.__init__ None).
Proof.
  apply reads_only_touches_nothing.
  apply touches_nothing_bind; [apply touches_nothing_get_cards|].
  intros. apply (touches_nothing_lift (Ok _)).
Qed.

(** The monitor on the answer [get] writes nothing, and ends with an
    exception: [sys.exit(1)] after the forty tables, or the error of the scan
    or of a read. *)
Theorem monitor_get_only_reads w :
  (exists evs,
     journal (snd (monitor_get w)) = journal w ++ evs /\
     Forall is_read evs) /\
  exists e, fst (monitor_get w) = Raise e.
Proof.
  unfold monitor_get. split.
  - apply reads_only_bind; [apply reads_only_scanner|]. intros scanner.
    apply reads_only_bind; [apply reads_only_refresh|]. intros _.
    apply reads_only_raise.
  - unfold bind. destruct (Scanner.__init__ None w) as [[scanner|e] w1];
      [|eauto].
    destruct (refresh 40 (Scanner.cards scanner) w1) as [[[]|e] w2]; simpl; eauto.
Qed.
Lemma fan_speed_without_tachometer card w :
  Card._endpoints card !! "fan1_input" = None ->
  Card.fan_speed card w = (Ok 0%Z, w).
Proof.
  intros Hk. unfold Card.fan_speed, try_except, bind, Card.read_endpoint,
    Card.endpoint_path. rewrite Hk. reflexivity.
Qed.

(** [show_table] only reads; when it returns, it has one row for each card
    of the registry, in the registry's order and under the card's name, and
    the row of a card without the endpoint [fan1_input] shows a fan speed of
    0. *)
Theorem show_table_rows cards w rows :
  fst (show_table cards w) = Ok rows ->
  Forall2
    (fun entry row =>
       fst (fst row) = fst entry /\
       (Card._endpoints (snd entry) !! "fan1_input" = None ->
        snd (fst row) = 0%Z))
    cards rows /\
  exists evs,
    journal (snd (show_table cards w)) = journal w ++ evs /\
    Forall is_read evs.
Proof.
  intros Hrun. split; [|apply reads_only_show_table].
  revert w rows Hrun.
  induction cards as [|[name card] cards IH]; intros w rows; simpl.
  - intros [= <-]. constructor.
  - unfold bind at 1.
    destruct (Card.fan_speed card w) as [[v|e] w1] eqn:Ev; [|discriminate].
    unfold bind at 1.
    destruct (Card.gpu_temp card w1) as [[t|e] w2]; [|discriminate].
    unfold bind at 1. specialize (IH w2).
    destruct (show_table cards w2) as [[rest|e] w3]; [|discriminate].
    intros [= <-]. constructor; [|now apply IH].
    split; [reflexivity|]. simpl. intros Hk.
    rewrite (fan_speed_without_tachometer card w Hk) in Ev. congruence.
Qed.
End MonitorProperties.

(** ** The daemon *)

Section DaemonProperties.
Context `{Builtins} `{Yaml}.

Lemma keeps_files_lift {A} (r : result A) : keeps_files (lift r).
Proof. intros w. reflexivity. Qed.

Lemma keeps_files_bind {A B} (c : M A) (k : A -> M B) :
  keeps_files c -> (forall a, keeps_files (k a)) -> keeps_files (bind c k).
Proof.
  intros Hc Hk w. unfold bind. specialize (Hc w).
  destruct (c w) as [[a|e] w1]; simpl in Hc; [|exact Hc].
  rewrite <- Hc. apply Hk.
Qed.

Lemma keeps_files_try_except {A} (body handler : M A) catches :
  keeps_files body -> keeps_files handler ->
  keeps_files (try_except body catches handler).
Proof.
  intros Hb Hh w. unfold try_except. specialize (Hb w).
  destruct (body w) as [[a|e] w1]; simpl in Hb; [exact Hb|].
  destruct (catches e); [|exact Hb]. rewrite <- Hb. apply Hh.
Qed.

Lemma keeps_files_touches_nothing {A} (c : M A) :
  touches_nothing c -> keeps_files c.
Proof. intros Hc w. now rewrite (Hc w). Qed.

Lemma keeps_files_open_read path : keeps_files (open_read path).
Proof.
  intros w. unfold open_read.
  destruct (fs w !! path) as [[content [|] wr | entries]|]; reflexivity.
Qed.

Lemma keeps_files_open_write path data : keeps_files (open_write path data).
Proof.
  intros w. unfold open_write.
  destruct (fs w !! path) as [[content r [|] | entries]|]; reflexivity.
Qed.

Lemma keeps_files_read_endpoint self endpoint :
  keeps_files (Card.read_endpoint self endpoint).
Proof.
  unfold Card.read_endpoint, Card.endpoint_path.
  apply keeps_files_bind; [|intros; apply keeps_files_open_read].
  destruct (Card._endpoints self !! endpoint);
    [apply (keeps_files_lift (Ok _)) | apply (keeps_files_lift (Raise _))].
Qed.

Lemma keeps_files_write_endpoint self endpoint data :
  keeps_files (Card.write_endpoint self endpoint data).
Proof.
  apply keeps_files_try_except; [|apply (keeps_files_lift (Raise _))].
  apply keeps_files_bind; [|intros; apply keeps_files_open_write].
  unfold Card.endpoint_path. destruct (Card._endpoints self !! endpoint);
    [apply (keeps_files_lift (Ok _)) | apply (keeps_files_lift (Raise _))].
Qed.

Lemma keeps_files_read_int self endpoint :
  keeps_files (text <- Card.read_endpoint self endpoint ;; lift (py_int_text text)).
Proof.
  apply keeps_files_bind; [apply keeps_files_read_endpoint|].
  intros. apply keeps_files_lift.
Qed.

Lemma keeps_files_set_fan_speed self speed :
  keeps_files (Card.set_fan_speed self speed).
Proof.
  unfold Card.set_fan_speed. apply keeps_files_bind.
  - destruct (speed >=? 100)%Z; [|destruct (speed <=? 0)%Z];
      (apply keeps_files_bind; [apply keeps_files_read_int|]); intros.
    + apply (keeps_files_lift (Ok _)).
    + apply (keeps_files_lift (Ok _)).
    + apply keeps_files_bind; [apply keeps_files_lift|].
      intros. apply (keeps_files_lift (Ok _)).
  - intros v. apply keeps_files_bind.
    + apply keeps_files_bind; [apply keeps_files_write_endpoint|].
      intros. apply (keeps_files_lift (Ok _)).
    + intros _. apply keeps_files_bind; [apply keeps_files_lift|].
      intros. apply keeps_files_write_endpoint.
Qed.

Lemma keeps_files_body curve entry :
  keeps_files (FanController.body curve entry).
Proof.
  destruct entry as [name card]. unfold FanController.body.
  apply keeps_files_bind.
  { apply keeps_files_bind; [apply keeps_files_read_endpoint|]. intros.
    apply keeps_files_bind; [apply keeps_files_lift|].
    intros. apply (keeps_files_lift (Ok _)). }
  intros temp. apply keeps_files_bind; [apply keeps_files_lift|].
  intros speed. apply keeps_files_bind.
  { apply keeps_files_try_except; [apply keeps_files_read_int|].
    apply (keeps_files_lift (Ok _)). }
  intros _. apply keeps_files_bind; [apply keeps_files_read_int|].
  intros _. apply keeps_files_bind; [apply keeps_files_read_int|].
  intros _. apply keeps_files_bind; [apply keeps_files_set_fan_speed|].
  intros _. apply (keeps_files_lift (Ok _)).
Qed.

Lemma keeps_files_main self rounds :
  keeps_files (FanController.main self rounds).
Proof.
  induction rounds as [|rounds IH]; simpl; [apply (keeps_files_lift (Ok _))|].
  apply keeps_files_bind; [|intros _; exact IH].
  unfold FanController.tick.
  induction (Scanner.cards (FanController._scanner self)) as [|entry cards IHc];
    simpl; [apply (keeps_files_lift (Ok _))|].
  apply keeps_files_bind; [apply keeps_files_body | intros _; exact IHc].
Qed.

Lemma touches_nothing_controller cfg :
  touches_nothing (FanController.__init__ cfg).
Proof.
  apply touches_nothing_bind.
  { apply touches_nothing_bind; [apply touches_nothing_get_cards|].
    intros. apply (touches_nothing_lift (Ok _)). }
  intros scanner. destruct (length (Scanner.cards scanner) <? 1)%nat.
  - apply (touches_nothing_lift (Raise _)).
  - apply touches_nothing_bind; [apply touches_nothing_lift|].
    intros. apply (touches_nothing_lift (Ok _)).
Qed.

Lemma keeps_files_run_with loaded rounds : keeps_files (run_with loaded rounds).
Proof.
  destruct loaded as [[cfg|]|e]; simpl;
    [|apply (keeps_files_lift (Raise _)) ..].
  apply keeps_files_bind.
  - apply keeps_files_touches_nothing, touches_nothing_controller.
  - intros self. apply keeps_files_main.
Qed.

Lemma os_path_isfile_run path w :
  os_path_isfile path w = (Ok (is_file w path), w).
Proof.
  unfold os_path_isfile, is_file.
  destruct (fs w !! path) as [[content r wr|entries]|]; reflexivity.
Qed.

Lemma first_config_none locations w :
  Forall (fun l => is_file w l = false) locations ->
  first_config locations w = (Ok None, w).
Proof.
  induction 1 as [|l ls Hl _ IH]; simpl; [reflexivity|].
  rewrite (bind_ok _ _ w _ w (os_path_isfile_run l w)), Hl. exact IH.
Qed.

(** The search stops at the first location that is a regular file: the result
    is that of loading it, also when loading raises, and no later location is
    looked at; with no such location the result is [None]. *)
Theorem first_config_stops_at_first_file locations w :
  (Forall (fun l => is_file w l = false) locations ->
   first_config locations w = (Ok None, w)) /\
  (forall before location after,
     locations = before ++ location :: after ->
     Forall (fun l => is_file w l = false) before ->
     is_file w location = true ->
     first_config locations w = load_config location w).
Proof.
  split; [apply first_config_none|].
  intros before location after -> Hb Hl.
  induction Hb as [|l ls Hx _ IH]; simpl.
  - now rewrite (bind_ok _ _ w _ w (os_path_isfile_run location w)), Hl.
  - rewrite (bind_ok _ _ w _ w (os_path_isfile_run l w)), Hx. exact IH.
Qed.

Lemma run_as_daemon_found rounds w cfg w1 :
  first_config CONFIG_LOCATIONS w = (Ok (Some cfg), w1) ->
  run_as_daemon rounds w = run_with (Ok (Some cfg)) rounds w1.
Proof.
  intros E. unfold run_as_daemon. rewrite (bind_ok _ _ w _ w1 E).
  unfold ret at 1. unfold bind at 1. reflexivity.
Qed.

Lemma run_as_daemon_not_found rounds w w1 :
  first_config CONFIG_LOCATIONS w = (Ok None, w1) ->
  run_as_daemon rounds w =
    match write_file home_config default_fan_config w1 with
    | (Ok _, w2) =>
        match open_read home_config w2 with
        | (Ok text, w3) => run_with (safe_load text) rounds w3
        | (Raise e, w3) => (Raise e, w3)
        end
    | (Raise e, w2) => (Raise e, w2)
    end.
Proof.
  intros E. unfold run_as_daemon. rewrite (bind_ok _ _ w _ w1 E).
  change (List.last CONFIG_LOCATIONS "") with home_config.
  unfold bind at 1. unfold bind at 1.
  destruct (write_file home_config default_fan_config w1) as [[[]|e] w2];
    [|reflexivity].
  unfold load_config. unfold bind at 1.
  destruct (open_read home_config w2) as [[text|e] w3]; [|reflexivity].
  unfold lift. destruct (safe_load text) as [[cfg|]|e]; reflexivity.
Qed.

(** When a configuration is found, the daemon creates and replaces no file:
    it goes on to the controller with the tree as it was. *)
Theorem daemon_with_config_keeps_files rounds w cfg w1 :
  first_config CONFIG_LOCATIONS w = (Ok (Some cfg), w1) ->
  run_as_daemon rounds w =
    (self <- FanController.__init__ cfg ;; FanController.main self rounds) w1 /\
  fs (snd (run_as_daemon rounds w)) = fs w.
Proof.
  intros E. rewrite (run_as_daemon_found rounds w cfg w1 E).
  split; [reflexivity|].
  rewrite (keeps_files_run_with (Ok (Some cfg)) rounds w1).
  assert (K : keeps_files (first_config CONFIG_LOCATIONS)).
  { unfold CONFIG_LOCATIONS. simpl.
    repeat (apply keeps_files_bind;
            [intros w0; now rewrite os_path_isfile_run|];
            intros [|];
            [apply keeps_files_bind;
             [apply keeps_files_open_read | intros; apply keeps_files_lift]|]).
    apply (keeps_files_lift (Ok _)). }
  specialize (K w). now rewrite E in K.
Qed.

(** With no configuration file and a directory [/home/j], the daemon creates
    [/home/j/amdgpu-fan.yml] with the default text, reads it back and goes on
    with what the loader makes of that text; the file stays as written. *)
Theorem daemon_creates_default_config rounds w entries :
  is_file w etc_config = false ->
  fs w !! home_config = None ->
  fs w !! "/home/j" = Some (Directory entries) ->
  let tree :=
    <[home_config := RegularFile default_fan_config true true]>
      (<["/home/j" := Directory (entries ++ ["amdgpu-fan.yml"])]> (fs w)) in
  run_as_daemon rounds w =
    run_with (safe_load default_fan_config) rounds
      (World tree
         (journal w ++
          [EvWrite home_config default_fan_config; EvRead home_config])) /\
  fs (snd (run_as_daemon rounds w)) = tree.
Proof.
  intros He Hh Hd tree.
  assert (E : first_config CONFIG_LOCATIONS w = (Ok None, w)).
  { apply first_config_none. repeat constructor; [exact He|].
    unfold is_file. fold home_config. now rewrite Hh. }
  assert (R : run_as_daemon rounds w =
    run_with (safe_load default_fan_config) rounds
      (World tree
         (journal w ++
          [EvWrite home_config default_fan_config; EvRead home_config]))).
  { rewrite (run_as_daemon_not_found rounds w w E).
    unfold write_file. rewrite Hh.
    change (os_path_split home_config) with ("/home/j", "amdgpu-fan.yml").
    cbv iota beta. rewrite Hd. fold tree.
    unfold open_read. cbn [fs journal]. unfold tree at 1.
    rewrite lookup_insert_eq. unfold record. cbn [fs journal].
    now rewrite <- app_assoc. }
  split; [exact R|]. rewrite R.
  now rewrite (keeps_files_run_with _ rounds _).
Qed.

(** With no configuration file and no directory [/home/j], the daemon stops
    with [FileNotFoundError] before it builds the controller, and has opened
    nothing. *)
Theorem daemon_needs_directory_of_last_location rounds w :
  is_file w etc_config = false ->
  fs w !! home_config = None ->
  fs w !! "/home/j" = None ->
  run_as_daemon rounds w = (Raise FileNotFoundError, w).
Proof.
  intros He Hh Hd.
  assert (E : first_config CONFIG_LOCATIONS w = (Ok None, w)).
  { apply first_config_none. repeat constructor; [exact He|].
    unfold is_file. fold home_config. now rewrite Hh. }
  rewrite (run_as_daemon_not_found rounds w w E).
  unfold write_file. rewrite Hh.
  change (os_path_split home_config) with ("/home/j", "amdgpu-fan.yml").
  cbv iota beta. now rewrite Hd.
Qed.

(** When the first location holds an empty document, the default text does
    not go there: it replaces the file at the last location, whatever that
    file held, and the daemon goes on with the default. *)
Theorem daemon_empty_first_config_replaces_last rounds w text wr old :
  fs w !! etc_config = Some (RegularFile text true wr) ->
  safe_load text = Ok None ->
  fs w !! home_config = Some (RegularFile old true true) ->
  let tree :=
    <[home_config := RegularFile default_fan_config true true]> (fs w) in
  run_as_daemon rounds w =
    run_with (safe_load default_fan_config) rounds
      (World tree
         (journal w ++
          [EvRead etc_config;
           EvWrite home_config default_fan_config; EvRead home_config])) /\
  fs (snd (run_as_daemon rounds w)) = tree /\
  tree !! etc_config = Some (RegularFile text true wr).
Proof.
  intros He Hl Hh tree.
  assert (E : first_config CONFIG_LOCATIONS w
              = (Ok None, record (EvRead etc_config) w)).
  { unfold CONFIG_LOCATIONS. cbn [first_config]. fold etc_config.
    rewrite (bind_ok _ _ w _ w (os_path_isfile_run etc_config w)).
    unfold is_file. rewrite He. unfold load_config.
    assert (O : open_read etc_config w = (Ok text, record (EvRead etc_config) w))
      by (unfold open_read; now rewrite He).
    rewrite (bind_ok _ _ w _ _ O). unfold lift. now rewrite Hl. }
  assert (R : run_as_daemon rounds w =
    run_with (safe_load default_fan_config) rounds
      (World tree
         (journal w ++
          [EvRead etc_config;
           EvWrite home_config default_fan_config; EvRead home_config]))).
  { rewrite (run_as_daemon_not_found rounds w _ E).
    unfold write_file, record. cbn [fs journal]. rewrite Hh.
    fold tree. unfold open_read. cbn [fs journal]. unfold tree at 1.
    rewrite lookup_insert_eq. unfold record. cbn [fs journal].
    now rewrite <- !app_assoc. }
  split; [exact R|]. split.
  - rewrite R. now rewrite (keeps_files_run_with _ rounds _).
  - unfold tree. rewrite lookup_insert_ne; [exact He | discriminate].
Qed.
End DaemonProperties.

(** ** More runs on the example worlds *)

Local Open Scope Q_scope.

Lemma init_picks_last_monitor_witness :
  (forall card w',
     Card.__init__ "card1" world_max_58 = (Ok card, w') ->
     w' = world_max_58 /\ Card._id card = "card1" /\
     exists before after,
       fs world_max_58 !! os_path_join ROOT_DIR ["card1"; HWMON_DIR]
       = Some (Directory (before ++ Card._monitor card :: after)) /\
       re_match_word_digit Card.HWMON_REGEX (Card._monitor card) = true /\
       Forall (fun node => re_match_word_digit Card.HWMON_REGEX node = false)
         after) /\
  (fs world_max_58 !! os_path_join ROOT_DIR ["card1"; HWMON_DIR] = None ->
   Card.__init__ "card1" world_max_58
   = (Raise FileNotFoundError, world_max_58)) /\
  (forall nodes,
     fs world_max_58 !! os_path_join ROOT_DIR ["card1"; HWMON_DIR]
     = Some (Directory nodes) ->
     Forall (fun node => re_match_word_digit Card.HWMON_REGEX node = false)
       nodes ->
     Card.__init__ "card1" world_max_58
     = (Raise (AttributeError "_monitor"), world_max_58)).
Proof.
  apply (init_picks_last_monitor "card1" world_max_58).
  vm_compute. reflexivity.
Defined.

Lemma init_maps_listed_files_witness :
  exists entries,
    fs world_max_58
      !! os_path_join ROOT_DIR
           ["card1"; HWMON_DIR;
            Card._monitor (card_named "card1" world_max_58)]
    = Some (Directory entries) /\
    forall k p,
      Card._endpoints (card_named "card1" world_max_58) !! k = Some p <->
      In k entries /\ Card.bookkeeping k = false /\
      p = os_path_join
            (os_path_join ROOT_DIR
               ["card1"; HWMON_DIR;
                Card._monitor (card_named "card1" world_max_58)]) [k].
Proof.
  apply (init_maps_listed_files "card1" world_max_58
           (card_named "card1" world_max_58) world_max_58).
  vm_compute. reflexivity.
Defined.

Lemma registry_holds_the_usable_cards_witness :
  List.NoDup (map fst (scanned world_max_58)) /\
  exists listing,
    fs world_max_58 !! ROOT_DIR = Some (Directory listing) /\
    forall name card,
      dict_get (scanned world_max_58) name = Some card <->
      In name listing /\
      re_match_word_digit Scanner.CARD_REGEX name = true /\
      Scanner.filtered_out None name = false /\
      Card.__init__ name world_max_58 = (Ok card, world_max_58).
Proof.
  apply (registry_holds_the_usable_cards None world_max_58
           (scanned world_max_58) world_max_58);
    vm_compute; reflexivity.
Defined.

Lemma allow_list_ignores_case_witness :
  Scanner._get_cards (Some ["CARD1"]) world_max_58
  = Scanner._get_cards (Some ["card1"]) world_max_58.
Proof.
  apply (allow_list_ignores_case ["CARD1"] ["card1"] world_max_58).
  reflexivity.
Defined.

Lemma scan_failures_witness :
  (AttributeError "_monitor" = FileNotFoundError /\
   fs world_without_monitor !! ROOT_DIR = None) \/
  AttributeError "_monitor" = NotADirectoryError \/
  AttributeError "_monitor" = AttributeError "_monitor".
Proof.
  apply (scan_failures None world_without_monitor (AttributeError "_monitor")).
  vm_compute. reflexivity.
Defined.

Lemma get_speed_at_control_point_witness :
  Curve.get_speed test_curve 70 = Ok (Finite 80).
Proof.
  apply (get_speed_at_control_point test_points test_curve 3 70 80 70);
    reflexivity.
Defined.

Lemma single_point_curve_is_constant_witness :
  exists c,
    Curve.__init__ [[50; 40]] = Ok c /\ Curve.get_speed c 90 = Ok (Finite 40).
Proof.
  apply (single_point_curve_is_constant 50 40 90);
    [reflexivity | discriminate].
Defined.

Lemma round_writes_every_card_in_order_witness :
  exists evs chunks,
    journal (snd (FanController.tick (controller world_max_58) world_max_58))
    = journal world_max_58 ++ evs /\
    Forall2 (fun entry chunk => mode_and_duty (snd entry) chunk)
      (Scanner.cards (FanController._scanner (controller world_max_58)))
      chunks /\
    writes_of evs = concat chunks.
Proof.
  apply (round_writes_every_card_in_order (controller world_max_58)
           world_max_58).
  vm_compute. reflexivity.
Defined.

Lemma daemon_with_config_keeps_files_witness :
  run_as_daemon 2 world_etc =
    (self <- FanController.__init__ (FanController.Config None default_points) ;;
     FanController.main self 2) (record (EvRead etc_config) world_etc) /\
  fs (snd (run_as_daemon 2 world_etc)) = fs world_etc.
Proof.
  apply (daemon_with_config_keeps_files 2 world_etc).
  vm_compute. reflexivity.
Defined.

Lemma daemon_creates_default_config_witness :
  run_as_daemon 2 world_home =
    run_with (safe_load default_fan_config) 2
      (World
         (<[home_config := RegularFile default_fan_config true true]>
            (<["/home/j" := Directory ([] ++ ["amdgpu-fan.yml"])]>
               (fs world_home)))
         (journal world_home ++
          [EvWrite home_config default_fan_config; EvRead home_config])) /\
  fs (snd (run_as_daemon 2 world_home)) =
    <[home_config := RegularFile default_fan_config true true]>
      (<["/home/j" := Directory ([] ++ ["amdgpu-fan.yml"])]> (fs world_home)).
Proof.
  apply (daemon_creates_default_config 2 world_home []);
    vm_compute; reflexivity.
Defined.

Lemma daemon_needs_directory_of_last_location_witness :
  run_as_daemon 2 world_max_58 = (Raise FileNotFoundError, world_max_58).
Proof.
  apply (daemon_needs_directory_of_last_location 2 world_max_58);
    vm_compute; reflexivity.
Defined.

Lemma daemon_empty_first_config_replaces_last_witness :
  run_as_daemon 2 world_empty_etc =
    run_with (safe_load default_fan_config) 2
      (World
         (<[home_config := RegularFile default_fan_config true true]>
            (fs world_empty_etc))
         (journal world_empty_etc ++
          [EvRead etc_config;
           EvWrite home_config default_fan_config; EvRead home_config])) /\
  fs (snd (run_as_daemon 2 world_empty_etc)) =
    <[home_config := RegularFile default_fan_config true true]>
      (fs world_empty_etc) /\
  <[home_config := RegularFile default_fan_config true true]>
    (fs world_empty_etc) !! etc_config = Some (RegularFile "" true false).
Proof.
  apply (daemon_empty_first_config_replaces_last 2 world_empty_etc ""
           false "speed_matrix: [[50, 40]]");
    vm_compute; reflexivity.
Defined.

Lemma show_table_rows_witness :
  Forall2
    (fun entry row =>
       fst (fst row) = fst entry /\
       (Card._endpoints (snd entry) !! "fan1_input" = None ->
        snd (fst row) = 0%Z))
    (scanned world_max_58)
    [("card0", 0%Z, Finite 61); ("card1", 1200%Z, Finite 45)] /\
  exists evs,
    journal (snd (show_table (scanned world_max_58) world_max_58))
      = journal world_max_58 ++ evs /\
    Forall is_read evs.
Proof.
  apply (show_table_rows (scanned world_max_58) world_max_58).
  vm_compute. reflexivity.
Defined.
